(** * Codewind: metrics status checker and performance load-run server

    A shallow embedding of

    - [metricsStatusChecker.js] (endpoint prober, format classifiers and
      dashboard resolver), and
    - [src/performance/server.js] (the load-run orchestrator),

    together with the properties their specification states about them.

    JavaScript strings are sequences of UTF-16 code units; they are
    modelled as lists of code units so that [split], [startsWith],
    [includes] and the regular expression [/{.*}/] behave exactly as they
    do on the real strings (in particular the four line terminators that
    the regular expression dot refuses). *)

From Stdlib Require Import ZArith NArith List String Ascii Lia Bool.
From stdpp Require Import base gmap list.
Import ListNotations.

Local Open Scope list_scope.

(** ** JavaScript strings *)

Module JS.

(** A UTF-16 code unit. *)
Abbreviation char16 := N.

(** A JavaScript string value. *)
Abbreviation jsstring := (list N).

(** The string written by an ASCII literal of the source. *)
Definition lit (s : string) : jsstring :=
  List.map N_of_ascii (list_ascii_of_string s).

Definition ch_lf : char16 := 10%N.
Definition ch_cr : char16 := 13%N.
Definition ch_ls : char16 := 8232%N.      (* U+2028 *)
Definition ch_ps : char16 := 8233%N.      (* U+2029 *)
Definition ch_space : char16 := 32%N.
Definition ch_dquote : char16 := 34%N.
Definition ch_hash : char16 := 35%N.
Definition ch_lbrace : char16 := 123%N.
Definition ch_rbrace : char16 := 125%N.

(** [a === b] on strings. *)
Definition str_eqb (a b : jsstring) : bool := bool_decide (a = b).

(** [s.startsWith(p)]. *)
Fixpoint startsWith (s p : jsstring) : bool :=
  match p, s with
  | [], _ => true
  | _ :: _, [] => false
  | a :: p', c :: s' => N.eqb c a && startsWith s' p'
  end.

(** [s.includes(p)]: [p] occurs at some position of [s]. *)
Fixpoint includes (s p : jsstring) : bool :=
  startsWith s p ||
  match s with
  | [] => false
  | _ :: s' => includes s' p
  end.

(** [s.split(sep)] for a separator of one code unit.  The result is never
    empty: the empty string splits into one empty piece. *)
Fixpoint split (sep : char16) (s : jsstring) : list jsstring :=
  match s with
  | [] => [[]]
  | c :: t =>
      if N.eqb c sep then [] :: split sep t
      else match split sep t with
           | [] => [[c]]
           | h :: r => (c :: h) :: r
           end
  end.

(** The characters the regular expression dot does not match (no [s]
    flag): the ECMAScript line terminators. *)
Definition isLineTerminator (c : char16) : bool :=
  N.eqb c ch_lf || N.eqb c ch_cr || N.eqb c ch_ls || N.eqb c ch_ps.

(** The tail [.*}] of the pattern, tried at the head of [s]: the greedy
    star takes as many non-terminator characters as it can and gives them
    back one at a time until a closing brace follows.  The result is what
    is left of [s] after the match. *)
Fixpoint match_dotstar_rbrace (s : jsstring) : option jsstring :=
  match s with
  | [] => None
  | c :: t =>
      if isLineTerminator c then None
      else match match_dotstar_rbrace t with
           | Some rest => Some rest
           | None => if N.eqb c ch_rbrace then Some t else None
           end
  end.

(** [s.replace(/{.*}/, '')]: the leftmost match of the pattern is removed;
    a string without a match is returned unchanged. *)
Fixpoint replace_braces (s : jsstring) : jsstring :=
  match s with
  | [] => []
  | c :: t =>
      if N.eqb c ch_lbrace then
        match match_dotstar_rbrace t with
        | Some rest => rest
        | None => c :: replace_braces t
        end
      else c :: replace_braces t
  end.

(** [lines[lines.length-1]]: [undefined] on the empty array. *)
Definition last_elem (lines : list jsstring) : option jsstring :=
  List.nth_error lines (List.length lines - 1).

(** [lines.pop()] as a statement: the array without its last element. *)
Definition pop (lines : list jsstring) : list jsstring := List.removelast lines.

Definition ch_backslash : char16 := 92%N.
Definition ch_slash : char16 := 47%N.
Definition ch_colon : char16 := 58%N.

(** [pieces.join(sep)] on an array of strings. *)
Fixpoint join (sep : jsstring) (pieces : list jsstring) : jsstring :=
  match pieces with
  | [] => []
  | [p] => p
  | p :: rest => p ++ sep ++ join sep rest
  end.

(** [s.charAt(i)]: the empty string when [i] is out of range. *)
Definition charAt (s : jsstring) (i : nat) : jsstring :=
  match s !! i with
  | Some c => [c]
  | None => []
  end.

(** [s.substring(start)]: a [start] beyond the end gives the empty
    string. *)
Definition substring_from (s : jsstring) (start : nat) : jsstring :=
  drop start s.

(** [a <= b] on strings: the order of the code units at the first place
    where the two differ, a prefix coming first. *)
Fixpoint str_leb (a b : jsstring) : bool :=
  match a, b with
  | [], _ => true
  | _ :: _, [] => false
  | x :: a', y :: b' =>
      if N.ltb x y then true
      else if N.eqb x y then str_leb a' b'
      else false
  end.

(** The names [Object.prototype] defines.  A plain object (an object
    literal, or what [JSON.parse] builds) inherits them: [obj[key]] for
    such a key, when [obj] has no property of its own under it, is the
    inherited member, a function or, for [__proto__], the prototype
    itself.  Each of them counts as true in a condition, none is a string
    and none has a [kill] method. *)
Definition Object_prototype_keys : list jsstring :=
  [lit "constructor"; lit "__defineGetter__"; lit "__defineSetter__";
   lit "hasOwnProperty"; lit "__lookupGetter__"; lit "__lookupSetter__";
   lit "isPrototypeOf"; lit "propertyIsEnumerable"; lit "toString";
   lit "valueOf"; lit "__proto__"; lit "toLocaleString"].

Definition inherited (key : jsstring) : bool :=
  bool_decide (key ∈ Object_prototype_keys).

End JS.

Import JS.

(** ** sharedFunctions.js *)

Module SharedFunctions.

(** [obj[key] = value] on a plain object, as far as the properties of
    [obj] itself go.  The assignment writes the property, with one
    exception: when [key] is [__proto__] and [obj] has no property of its
    own under that name, the assignment goes to the setter [obj] inherits
    from [Object.prototype], which stores no property. *)
Definition assign {V : Type} (obj : gmap jsstring V) (key : jsstring)
    (value : V) : gmap jsstring V :=
  if str_eqb key (lit "__proto__") && bool_decide (obj !! key = None)
  then obj
  else <[key := value]> obj.

(** [updateObject(objectToUpdate, fieldsToAddToObject)]: the [for..in]
    loop goes through the fields of the second object and assigns each
    to the first, which is returned.  The objects are given by the
    properties of their own. *)
Definition updateObject {V : Type}
    (objectToUpdate fieldsToAddToObject : gmap jsstring V) : gmap jsstring V :=
  map_fold (fun key value acc => assign acc key value)
           objectToUpdate fieldsToAddToObject.

(** [convertBackSlashesToForwardSlashes(str)] *)
Definition convertBackSlashesToForwardSlashes (str : jsstring) : jsstring :=
  join (lit "/") (split ch_backslash str).

(** [isLetter(currentChar)] *)
Definition isLetter (currentChar : jsstring) : bool :=
  (str_leb (lit "a") currentChar && str_leb currentChar (lit "z"))
  || (str_leb (lit "A") currentChar && str_leb currentChar (lit "Z")).

(** [isWindowsAbsolutePath(absolutePath)] *)
Definition isWindowsAbsolutePath (absolutePath : jsstring) : bool :=
  if Nat.ltb (List.length absolutePath) 2 then false
  else
    let char0 := charAt absolutePath 0 in
    if negb (isLetter char0) then false
    else if negb (str_eqb (charAt absolutePath 1) (lit ":")) then false
    else true.

Section DriveLetter.

(** [String.prototype.toLowerCase], which follows the Unicode case
    mapping; what is used of it is stated where it is needed. *)
Variable toLowerCase : jsstring -> jsstring.

(** [convertFromWindowsDriveLetter(windowsPath)] *)
Definition convertFromWindowsDriveLetter (windowsPath : jsstring) : jsstring :=
  if negb (isWindowsAbsolutePath windowsPath) then windowsPath
  else
    let linuxPath := convertBackSlashesToForwardSlashes windowsPath in
    let char0 := charAt linuxPath 0 in
    let linuxPath := substring_from linuxPath 2 in
    lit "/" ++ toLowerCase char0 ++ linuxPath.

End DriveLetter.

End SharedFunctions.

(** ** metricsStatusChecker.js *)

Module MetricsStatusChecker.

(** *** Format classifiers *)

(** [isAppmetricsFormat(html)] *)
Definition isAppmetricsFormat (html : jsstring) : bool :=
  includes html (lit "src=" ++ ch_dquote :: lit "graphmetrics/js").

(** The callback given to [lines.filter] in [isPrometheusFormat]. *)
Definition validPrometheusLine (line : jsstring) : bool :=
  let lineIsComment := startsWith line (lit "#") in
  let validatedLine := replace_braces line in
  let validMetric :=
    Z.eqb (Z.of_nat (List.length (split ch_space validatedLine)) - 1) 1 in
  lineIsComment || validMetric.

(** The array [lines] after the conditional [pop]. *)
Definition prometheusLines (string : jsstring) : list jsstring :=
  let lines := split ch_lf string in
  if bool_decide (last_elem lines = Some []) then pop lines else lines.

(** [isPrometheusFormat(string)] *)
Definition isPrometheusFormat (string : jsstring) : bool :=
  let lines := prometheusLines string in
  let numberOfValidPrometheusLines :=
    List.length (List.filter validPrometheusLine lines) in
  Nat.eqb (List.length lines) numberOfValidPrometheusLines.

(** *** The catalog of endpoints *)

Inductive METRICS_DASH_HOST := project | performanceContainer.

#[global] Instance METRICS_DASH_HOST_eq_dec : EqDecision METRICS_DASH_HOST.
Proof. solve_decision. Defined.

Record metric_endpoint := {
  endpoint : jsstring;
  hosting : METRICS_DASH_HOST;
}.

#[global] Instance metric_endpoint_eq_dec : EqDecision metric_endpoint.
Proof. solve_decision. Defined.

Module VALID_METRIC_ENDPOINT.

Definition metrics :=
  {| endpoint := lit "/metrics"; hosting := performanceContainer |}.

Definition appmetricsDash :=
  {| endpoint := lit "/appmetrics-dash"; hosting := project |}.

Definition javametricsDash :=
  {| endpoint := lit "/javametrics-dash"; hosting := project |}.

Definition swiftmetricsDash :=
  {| endpoint := lit "/swiftmetrics-dash"; hosting := project |}.

Definition actuatorPrometheus :=
  {| endpoint := lit "/actuator/prometheus"; hosting := performanceContainer |}.

(** [Object.keys(VALID_METRIC_ENDPOINT).map(name => ...)], in key order. *)

Definition values : list metric_endpoint :=
  [metrics; appmetricsDash; javametricsDash; swiftmetricsDash;
   actuatorPrometheus].

End VALID_METRIC_ENDPOINT.

(** *** Probing *)

(** How an awaited call ends: with a value, or with an exception (a
    rejected promise). *)
Inductive completion (A : Type) :=
| Returns (a : A)
| Throws (err : jsstring).
Arguments Returns {A} a.
Arguments Throws {A} err.

Definition bind {A B} (c : completion A) (k : A -> completion B) : completion B :=
  match c with
  | Returns a => k a
  | Throws e => Throws e
  end.

(** [Promise.all(xs.map(f))]: the values in order, or a rejection. *)
Fixpoint promise_all {A B} (f : A -> completion B) (xs : list A)
  : completion (list B) :=
  match xs with
  | [] => Returns []
  | x :: xs' =>
      bind (f x) (fun b => bind (promise_all f xs') (fun bs => Returns (b :: bs)))
  end.

(** The fields of the request options and of the response that the prober
    uses. *)
Record request_options := {
  opt_host : jsstring;
  opt_port : Z;
  opt_path : jsstring;
  opt_method : jsstring;
}.

Record response := {
  statusCode : Z;
  body : jsstring;
}.

Section Prober.

(** [asyncHttpRequest] of [sharedFunctions.js] talks to the network: the
    promise it returns resolves with the response once the body has been
    read, and rejects on a request or response error; a request that
    takes more than 30 seconds is aborted, which raises such an error. *)
Variable asyncHttpRequest : request_options -> completion response.

(** [isMetricsEndpoint(host, port, path)] *)
Definition isMetricsEndpoint (host : jsstring) (port : Z) (path : jsstring)
  : completion bool :=
  let options :=
    {| opt_host := host; opt_port := port; opt_path := path;
       opt_method := lit "GET" |} in
  match asyncHttpRequest options with
  | Throws _ => Returns false
  | Returns res =>
      let validRes := Z.eqb (statusCode res) 200 in
      if negb validRes || str_eqb (body res) [] then Returns false
      else
        let isAppmetrics := isAppmetricsFormat (body res) in
        let isPrometheus := isPrometheusFormat (body res) in
        Returns (isAppmetrics || isPrometheus)
  end.

(** [getActiveMetricsURLs(host, port)] *)
Definition getActiveMetricsURLs (host : jsstring) (port : Z)
  : completion (gmap jsstring bool) :=
  let endpointsToCheck := List.map endpoint VALID_METRIC_ENDPOINT.values in
  bind (promise_all
          (fun endpoint =>
             bind (isMetricsEndpoint host port endpoint)
                  (fun isActive => Returns (endpoint, isActive)))
          endpointsToCheck)
       (fun endpoints =>
          Returns (List.fold_left
                     (fun acc '(endpoint, isActive) => <[endpoint := isActive]> acc)
                     endpoints ∅)).

End Prober.

(** *** Resolving the dashboard *)

(** [getDashboardPath(metricsDashHost, projectMetricEndpoint, projectID,
    language)]; [None] is [null]. *)
Definition getDashboardPath (metricsDashHost : METRICS_DASH_HOST)
    (projectMetricEndpoint projectID language : jsstring) : option jsstring :=
  if bool_decide (metricsDashHost = project) then
    Some (projectMetricEndpoint ++ lit "/?theme=dark")
  else if bool_decide (language ∈ [lit "java"; lit "nodejs"])
          && bool_decide (metricsDashHost = performanceContainer) then
    Some (lit "/performance/monitor/dashboard/" ++ language
            ++ lit "?theme=dark&projectID=" ++ projectID)
  else None.

(** The value [getMetricsDashboardHostAndPath] returns. *)
Record dashboard := {
  dash_hosting : option METRICS_DASH_HOST;
  dash_path : option jsstring;
}.

Definition prioritisedReturnOrder : list metric_endpoint :=
  [ VALID_METRIC_ENDPOINT.metrics;
    VALID_METRIC_ENDPOINT.appmetricsDash;
    VALID_METRIC_ENDPOINT.javametricsDash;
    VALID_METRIC_ENDPOINT.swiftmetricsDash ].

(** The callback given to [prioritisedReturnOrder.find]. *)
Definition isDashboardCandidate (endpoints : gmap jsstring bool)
    (projectLanguage : jsstring) (e : metric_endpoint) : bool :=
  if str_eqb (endpoint e) (endpoint VALID_METRIC_ENDPOINT.metrics)
     && negb (str_eqb projectLanguage (lit "java"))
  then false
  else bool_decide (endpoints !! endpoint e = Some true).

(** The part of [getMetricsDashboardHostAndPath] that follows the probe:
    what it makes of the capability map [endpoints]. *)
Definition resolveDashboard (endpoints : gmap jsstring bool)
    (projectID projectLanguage : jsstring) : dashboard :=
  let dashboardObject :=
    List.find (isDashboardCandidate endpoints projectLanguage)
              prioritisedReturnOrder in
  match dashboardObject with
  | None => {| dash_hosting := None; dash_path := None |}
  | Some e =>
      let path :=
        getDashboardPath (hosting e) (endpoint e) projectID projectLanguage in
      {| dash_hosting := Some (hosting e); dash_path := path |}
  end.

(** [getMetricsDashboardHostAndPath(host, port, projectID, projectLanguage)] *)
Definition getMetricsDashboardHostAndPath
    (asyncHttpRequest : request_options -> completion response)
    (host : jsstring) (port : Z) (projectID projectLanguage : jsstring)
  : completion dashboard :=
  bind (getActiveMetricsURLs asyncHttpRequest host port)
       (fun endpoints =>
          Returns (resolveDashboard endpoints projectID projectLanguage)).

(** *** The build file of the project *)

Definition filesToCheck : gmap jsstring jsstring :=
  list_to_map [ (lit "java", lit "pom.xml");
                (lit "nodejs", lit "package.json");
                (lit "javascript", lit "package.json");
                (lit "swift", lit "Package.swift") ].

(** What is thrown: the [MetricsStatusError] of the checker, with its code
    and message, or whatever a library call was rejected with. *)
Inductive js_error :=
| MetricsStatusError (code message : jsstring)
| LibraryError (err : jsstring).

(** How a function that can throw either of them ends. *)
Inductive outcome (A : Type) :=
| Value (a : A)
| Raised (e : js_error).
Arguments Value {A} a.
Arguments Raised {A} e.

Definition obind {A B} (o : outcome A) (k : A -> outcome B) : outcome B :=
  match o with
  | Value a => k a
  | Raised e => Raised e
  end.

Definition lift {A} (c : completion A) : outcome A :=
  match c with
  | Returns a => Value a
  | Throws err => Raised (LibraryError err)
  end.

Section Json.

(** The numbers of JSON are doubles; of a number the checker uses nothing
    but whether it counts as true in a condition (it is neither zero nor
    NaN), so the numbers and that test are left open. *)
Variable number : Type.
Variable number_truthy : number -> bool.

(** A value [JSON.parse] returns; the properties of an object are listed
    in the order of the text. *)
#[local] Unset Elimination Schemes.
Inductive json :=
| JNull
| JBool (b : bool)
| JNumber (n : number)
| JString (s : jsstring)
| JArray (items : list json)
| JObject (props : list (jsstring * json)).
#[local] Set Elimination Schemes.

(** The property of an object under a key; of two properties with one
    key the later one is kept. *)
Fixpoint own_property (props : list (jsstring * json)) (key : jsstring)
  : option json :=
  match props with
  | [] => None
  | (k, v) :: rest =>
      match own_property rest key with
      | Some later => Some later
      | None => if str_eqb k key then Some v else None
      end
  end.

(** [v[key]] for a key that is no index, is not [length] and is defined
    by no prototype, as [dependencies] and [appmetrics-dash] are: reading
    it from [null] throws, an object gives the property it has or
    [undefined], and every other value gives [undefined]. *)
Definition json_get (v : json) (key : jsstring) : completion (option json) :=
  match v with
  | JNull => Throws (lit "TypeError")
  | JObject props => Returns (own_property props key)
  | _ => Returns None
  end.

(** Whether a value, or [undefined], counts as true in a condition. *)
Definition json_truthy (v : option json) : bool :=
  match v with
  | None => false
  | Some JNull => false
  | Some (JBool b) => b
  | Some (JNumber n) => number_truthy n
  | Some (JString s) => negb (str_eqb s [])
  | Some (JArray _) => true
  | Some (JObject _) => true
  end.

End Json.

Arguments JNull {number}.
Arguments JBool {number} b.
Arguments JNumber {number} n.
Arguments JString {number} s.
Arguments JArray {number} items.
Arguments JObject {number} props.
Arguments own_property {number} props key.
Arguments json_get {number} v key.
Arguments json_truthy {number} number_truthy v.

(** The fields of a project [getMetricStatusForProject] reads. *)
Record project_info := {
  project_language : jsstring;
  project_host : jsstring;
  project_internalPort : Z;
  project_appStatus : jsstring;
  project_path : jsstring;
}.

(** What [getMetricStatusForProject] returns; a field read from the map
    of endpoints is a boolean or [undefined]. *)
Record metric_status := {
  metricsAvailable : option bool;
  running : bool;
  metricsEndpoint : option bool;
  appmetricsEndpoint : option bool;
  microprofilePackage : bool;
  appmetricsPackage : bool;
  performanceEnable : bool;
}.

(** [a || b] on values that are booleans or [undefined]. *)
Definition js_or (a b : option bool) : option bool :=
  match a with
  | Some true => a
  | _ => b
  end.

Section FileSystem.

(** The file system and the libraries, as the checker finds them:
    [fs.pathExists], [fs.readFile(_, 'utf8')], [path.join] and
    [JSON.parse]; and the network, as before. *)
Variable number : Type.
Variable number_truthy : number -> bool.
Variable pathExists : jsstring -> bool.
Variable readFile : jsstring -> completion jsstring.
Variable path_join : jsstring -> jsstring -> jsstring.
Variable JSON_parse : jsstring -> completion (json number).
Variable asyncHttpRequest : request_options -> completion response.

(** [doesMetricsPackageExist(pathOfFileToCheck, projectLanguage)]:
    [metricsPackageExists] is assigned last in each branch of the [try]
    block, so it is what the block computes, or [false] if the block
    throws. *)
Definition doesMetricsPackageExist (pathOfFileToCheck projectLanguage : jsstring)
  : completion bool :=
  let try_block : completion bool :=
    bind (readFile pathOfFileToCheck) (fun fileToCheck =>
      if str_eqb projectLanguage (lit "nodejs")
         || str_eqb projectLanguage (lit "javascript")
      then
        bind (JSON_parse fileToCheck) (fun packageJSON =>
        bind (json_get packageJSON (lit "dependencies")) (fun dependencies =>
          match dependencies with
          | Some deps =>
              if json_truthy number_truthy dependencies then
                bind (json_get deps (lit "appmetrics-dash")) (fun dash =>
                  Returns (json_truthy number_truthy dash))
              else Returns false
          | None => Returns false
          end))
      else if str_eqb projectLanguage (lit "java") then
        Returns (includes fileToCheck (lit "javametrics"))
      else if str_eqb projectLanguage (lit "swift") then
        Returns (includes fileToCheck (lit "SwiftMetrics.git"))
      else Returns false) in
  match try_block with
  | Returns metricsPackageExists => Returns metricsPackageExists
  | Throws _ => Returns false
  end.

(** [isAppmetricsInFileSystem(projectPath, projectLanguage)].
    [filesToCheck] is an object literal: for a language it does not list,
    [filesToCheck[projectLanguage]] is [undefined], unless the language is
    a name [Object.prototype] defines; then it is that member, which
    passes the test [!fileToCheck] and which [path.join] refuses, being
    no string, with a [TypeError]. *)
Definition isAppmetricsInFileSystem (projectPath projectLanguage : jsstring)
  : outcome bool :=
  match filesToCheck !! projectLanguage with
  | None =>
      if inherited projectLanguage
      then Raised (LibraryError (lit "TypeError [ERR_INVALID_ARG_TYPE]"))
      else Value false
  | Some fileToCheck =>
      if str_eqb fileToCheck [] then Value false
      else
        let pathOfFileToCheck := path_join projectPath fileToCheck in
        if pathExists pathOfFileToCheck then
          lift (doesMetricsPackageExist pathOfFileToCheck projectLanguage)
        else
          Raised (MetricsStatusError
                    (lit "BUILD_FILE_MISSING")
                    (lit "Cannot find project build-file (" ++ fileToCheck
                       ++ lit ")"))
  end.

(** [hasMicroprofileMetrics(filePath)] *)
Definition hasMicroprofileMetrics (filePath : jsstring) : completion bool :=
  let pomExists := pathExists filePath in
  if negb pomExists then Returns false
  else
    let openLibertyString := lit "<artifactId>microprofile</artifactId>" in
    bind (readFile filePath) (fun contents =>
      Returns (includes contents openLibertyString)).

(** [getMetricStatusForProject(project)] *)
Definition getMetricStatusForProject (p : project_info) : outcome metric_status :=
  let running := str_eqb (project_appStatus p) (lit "started") in
  obind (isAppmetricsInFileSystem (project_path p) (project_language p))
    (fun appmetricsPackage =>
  obind (lift (getActiveMetricsURLs asyncHttpRequest (project_host p)
                 (project_internalPort p)))
    (fun metricEndpoints =>
       let metricsEndpoint :=
         metricEndpoints !! endpoint VALID_METRIC_ENDPOINT.metrics in
       let appmetricsEndpoint :=
         js_or (js_or
                  (metricEndpoints !! endpoint VALID_METRIC_ENDPOINT.appmetricsDash)
                  (metricEndpoints !! endpoint VALID_METRIC_ENDPOINT.javametricsDash))
               (metricEndpoints !! endpoint VALID_METRIC_ENDPOINT.swiftmetricsDash) in
       let metricsAvailable := js_or metricsEndpoint appmetricsEndpoint in
       Value {| metricsAvailable := metricsAvailable;
                running := running;
                metricsEndpoint := metricsEndpoint;
                appmetricsEndpoint := appmetricsEndpoint;
                microprofilePackage := true;
                appmetricsPackage := appmetricsPackage;
                performanceEnable := true |})).

End FileSystem.

Arguments doesMetricsPackageExist {number} number_truthy readFile JSON_parse
  pathOfFileToCheck projectLanguage.
Arguments isAppmetricsInFileSystem {number} number_truthy pathExists readFile
  path_join JSON_parse projectPath projectLanguage.
Arguments getMetricStatusForProject {number} number_truthy pathExists readFile
  path_join JSON_parse asyncHttpRequest p.

End MetricsStatusChecker.

(** ** src/performance/server.js *)

Module PerformanceServer.

(** The fields of [req.body] the server reads; the rest of the payload is
    carried along unread.  [url] is [None] when the field is absent. *)
Record req_body := {
  projectID : jsstring;
  url : option jsstring;
  payload : jsstring;
}.

(** [!req.body.url]: the field is absent or the empty string. *)
Definition url_missing (b : req_body) : bool :=
  match url b with
  | None => true
  | Some u => str_eqb u []
  end.

(** A value of [loadProcess[projectID]]: [null], or the child process of
    the run with the given number. *)
Inductive slot := Null | ChildProcess (run : nat).

(** Whether a property of [loadProcess] itself counts as true in a
    condition: a child process does, [null] does not, and neither does a
    property that was never written. *)
Definition truthy (v : option slot) : bool :=
  match v with
  | Some (ChildProcess _) => true
  | _ => false
  end.

(** [loadProcess] is created as [{}], a plain object: under a key it has
    no property of its own for, a read gives what [Object.prototype]
    defines under that name, if anything. *)
Definition reads_inherited (own : gmap jsstring slot) (k : jsstring) : bool :=
  bool_decide (own !! k = None) && inherited k.

(** Whether [loadProcess[k]] counts as true in a condition: it is a child
    process, or an inherited member. *)
Definition truthy_at (own : gmap jsstring slot) (k : jsstring) : bool :=
  truthy (own !! k) || reads_inherited own k.

(** What [io.emit] sends: the event name with the fields of its payload. *)
Inductive event :=
| starting (projectID : jsstring)
| started (projectID : jsstring)
| cancelled (projectID : jsstring)
| loadrunError (output error projectID : jsstring)
| completed (output projectID : jsstring).

(** The reply of a route: [res.sendStatus(code)],
    [res.status(code).send(text)], or [res.status(code).send(err)] with
    the error a [catch] clause caught, given by its name. *)
Inductive reply :=
| sendStatus (code : Z)
| status_send (code : Z) (text : jsstring)
| status_send_err (code : Z) (err : jsstring).

Definition reply_code (r : reply) : Z :=
  match r with
  | sendStatus c => c
  | status_send c _ => c
  | status_send_err c _ => c
  end.

(** The [signal] argument of the [exit] listener: [null], a number or a
    signal name; the [code] argument is a number or [null]. *)
Inductive exit_signal :=
| signal_null
| signal_number (n : Z)
| signal_name (s : jsstring).

(** One call of [runLoad]: the variables its listeners close over, the
    signals sent to its child, and whether the child has reported its end
    (through [exit] or [error]). *)
Record run_state := {
  options : req_body;
  output : jsstring;
  errOutput : jsstring;
  kills : list jsstring;
  ended : bool;
}.

(** The server: the global [loadProcess], the runs started so far (the
    n-th call of [runLoad] is run n), and the events emitted so far, oldest
    first, each with the run whose code emitted it. *)
Record server := {
  loadProcess : gmap jsstring slot;
  runs : list run_state;
  emitted : list (nat * event);
}.

Definition initial : server :=
  {| loadProcess := ∅; runs := []; emitted := [] |}.

(** [io.emit(...)] called by the code of run [r]. *)
Definition io_emit (r : nat) (e : event) (st : server) : server :=
  {| loadProcess := loadProcess st; runs := runs st;
     emitted := emitted st ++ [(r, e)] |}.

(** [loadProcess[k] = v]: the property is written.  (Only under
    [__proto__] would the assignment go elsewhere, to the inherited
    setter; no run is ever started under a name [Object.prototype]
    defines, see [plain_keys_trace].) *)
Definition set_loadProcess (k : jsstring) (v : slot) (st : server) : server :=
  {| loadProcess := <[k := v]> (loadProcess st); runs := runs st;
     emitted := emitted st |}.

Definition set_run (r : nat) (c : run_state) (st : server) : server :=
  {| loadProcess := loadProcess st; runs := <[r := c]> (runs st);
     emitted := emitted st |}.

(** [childProcess.spawn('node', ['runload.js', JSON.stringify(options)])]
    stored under the project: a new child, nothing captured yet. *)
Definition spawn (opts : req_body) (st : server) : server :=
  {| loadProcess := <[projectID opts := ChildProcess (List.length (runs st))]>
                      (loadProcess st);
     runs := runs st ++
             [{| options := opts; output := []; errOutput := [];
                 kills := []; ended := false |}];
     emitted := emitted st |}.

(** [runLoad(options)] *)
Definition runLoad (opts : req_body) (st : server) : server :=
  let r := List.length (runs st) in
  let st := io_emit r (starting (projectID opts)) st in
  let st := spawn opts st in
  io_emit r (started (projectID opts)) st.

(** [app.post('/api/v1/runload', ...)].  Neither [io.emit] nor [spawn] is
    taken to throw (a worker that cannot be started is reported through
    [error]), so the [catch] clause of the route is not entered. *)
Definition post_runload (b : req_body) (st : server) : server * reply :=
  if negb (truthy_at (loadProcess st) (projectID b)) then
    if url_missing b then (st, sendStatus 500)
    else (runLoad b st, sendStatus 202)
  else (st, status_send 409 (lit "A load run is already in progress")).

(** [app.post('/api/v1/cancelLoad', ...)].  When [loadProcess[projectID]]
    is a child process it is sent the signal.  When it is an inherited
    member, [loadProcess[projectID].kill] is [undefined], calling it
    throws a [TypeError], and the [catch] clause answers with
    [res.status(500).send(err)]. *)
Definition post_cancelLoad (b : req_body) (st : server) : server * reply :=
  if truthy_at (loadProcess st) (projectID b) then
    match loadProcess st !! projectID b with
    | Some (ChildProcess r) =>
        let st :=
          match runs st !! r with
          | Some c =>
              set_run r {| options := options c; output := output c;
                           errOutput := errOutput c;
                           kills := kills c ++ [lit "SIGKILL"];
                           ended := ended c |} st
          | None => st
          end in
        (st, sendStatus 200)
    | _ => (st, status_send_err 500 (lit "TypeError"))
    end
  else (st, status_send 409 (lit "No run in progress")).

(** The [stdout] and [stderr] listeners of run [r]. *)
Definition on_stdout (r : nat) (data : jsstring) (st : server) : server :=
  match runs st !! r with
  | Some c =>
      set_run r {| options := options c; output := output c ++ data;
                   errOutput := errOutput c; kills := kills c;
                   ended := ended c |} st
  | None => st
  end.

Definition on_stderr (r : nat) (data : jsstring) (st : server) : server :=
  match runs st !! r with
  | Some c =>
      set_run r {| options := options c; output := output c;
                   errOutput := errOutput c ++ data; kills := kills c;
                   ended := ended c |} st
  | None => st
  end.

Definition mark_ended (r : nat) (c : run_state) (st : server) : server :=
  set_run r {| options := options c; output := output c;
               errOutput := errOutput c; kills := kills c;
               ended := true |} st.

(** [signal === 9 || signal === 'SIGKILL'] *)
Definition is_sigkill (signal : exit_signal) : bool :=
  match signal with
  | signal_null => false
  | signal_number n => Z.eqb n 9
  | signal_name s => str_eqb s (lit "SIGKILL")
  end.

(** [code != 0]: [null] is not loosely equal to 0. *)
Definition code_not_zero (code : option Z) : bool :=
  match code with
  | None => true
  | Some n => negb (Z.eqb n 0)
  end.

(** The [exit] listener of run [r]. *)
Definition on_exit (r : nat) (code : option Z) (signal : exit_signal)
    (st : server) : server :=
  match runs st !! r with
  | Some c =>
      let k := projectID (options c) in
      let st := mark_ended r c st in
      let st := set_loadProcess k Null st in
      if is_sigkill signal then io_emit r (cancelled k) st
      else if code_not_zero code then
        io_emit r (loadrunError (output c) (errOutput c) k) st
      else io_emit r (completed (output c) k) st
  | None => st
  end.

(** The [error] listener of run [r]. *)
Definition on_error (r : nat) (st : server) : server :=
  match runs st !! r with
  | Some c =>
      let k := projectID (options c) in
      let st := mark_ended r c st in
      let st := set_loadProcess k Null st in
      io_emit r (loadrunError (output c) (errOutput c) k) st
  | None => st
  end.

(** What reaches the server: the two requests, and what the child of a
    run reports. *)
Inductive input :=
| runload (b : req_body)
| cancelLoad (b : req_body)
| stdout_data (r : nat) (data : jsstring)
| stderr_data (r : nat) (data : jsstring)
| exit (r : nat) (code : option Z) (signal : exit_signal)
| error (r : nat).

(** No handler awaits anything, so each input is handled in one piece. *)
Definition step (st : server) (i : input) : server :=
  match i with
  | runload b => fst (post_runload b st)
  | cancelLoad b => fst (post_cancelLoad b st)
  | stdout_data r d => on_stdout r d st
  | stderr_data r d => on_stderr r d st
  | exit r code signal => on_exit r code signal st
  | error r => on_error r st
  end.

Definition run_trace (st : server) (tr : list input) : server :=
  List.fold_left step tr st.

(** A child reports only once it has been spawned, and it reports its end
    once: by [exit], or by [error] when it could not be started. *)
Definition spawned (st : server) (r : nat) : bool :=
  match runs st !! r with
  | Some _ => true
  | None => false
  end.

Definition live (st : server) (r : nat) : bool :=
  match runs st !! r with
  | Some c => negb (ended c)
  | None => false
  end.

Definition admissible (st : server) (i : input) : bool :=
  match i with
  | runload _ | cancelLoad _ => true
  | stdout_data r _ | stderr_data r _ => spawned st r
  | exit r _ _ | error r => live st r
  end.

Fixpoint admissible_trace (st : server) (tr : list input) : bool :=
  match tr with
  | [] => true
  | i :: tr' => admissible st i && admissible_trace (step st i) tr'
  end.

(** The events that end a run. *)
Definition is_terminal (e : event) : bool :=
  match e with
  | cancelled _ | loadrunError _ _ _ | completed _ _ => true
  | starting _ | started _ => false
  end.

(** The events run [r] emitted. *)
Definition events_of_run (r : nat) (st : server) : list event :=
  List.map snd (List.filter (fun re => Nat.eqb (fst re) r) (emitted st)).

Definition terminal_events_of_run (r : nat) (st : server) : list event :=
  List.filter is_terminal (events_of_run r st).

Definition is_error_input (i : input) : bool :=
  match i with
  | error _ => true
  | _ => false
  end.

End PerformanceServer.

(** ** The specification's vocabulary *)

Module Spec.

Import MetricsStatusChecker.

(** How often a code unit occurs in a string. *)
Fixpoint count_char (c : char16) (s : jsstring) : nat :=
  match s with
  | [] => 0
  | d :: t => (if N.eqb d c then 1 else 0) + count_char c t
  end.

(** "Exactly one separating space": a name and a value, neither with a
    space in it, and one space between them. *)
Definition one_separating_space (s : jsstring) : Prop :=
  exists name value : jsstring,
    s = name ++ ch_space :: value /\ (ch_space ∉ name) /\ (ch_space ∉ value).

(** "A line is valid if it starts with [#], or if what remains of it once
    the label block is stripped has exactly one separating space". *)
Definition line_valid (line : jsstring) : Prop :=
  (exists rest, line = ch_hash :: rest) \/
  one_separating_space (replace_braces line).

(** "If the final element is empty, drop it." *)
Fixpoint drop_final_empty (lines : list jsstring) : list jsstring :=
  match lines with
  | [] => []
  | [l] => match l with [] => [] | _ :: _ => [l] end
  | l :: rest => l :: drop_final_empty rest
  end.

(** The label-block stripping as the specification words it: from the
    first opening brace to the first closing brace after it. *)
Fixpoint after_first_rbrace (s : jsstring) : option jsstring :=
  match s with
  | [] => None
  | c :: t => if N.eqb c ch_rbrace then Some t else after_first_rbrace t
  end.

Fixpoint strip_first_group (s : jsstring) : jsstring :=
  match s with
  | [] => []
  | c :: t =>
      if N.eqb c ch_lbrace then
        match after_first_rbrace t with
        | Some rest => rest
        | None => c :: strip_first_group t
        end
      else c :: strip_first_group t
  end.

(** The white space of ECMAScript (what [\s] matches): the WhiteSpace and
    LineTerminator code units. *)
Definition isWhiteSpace (c : char16) : bool :=
  bool_decide (c ∈ [9; 10; 11; 12; 13; 32; 160; 5760; 8192; 8193; 8194; 8195;
                     8196; 8197; 8198; 8199; 8200; 8201; 8202; 8232; 8233;
                     8239; 8287; 12288; 65279]%N).

(** "Whitespace-separated tokens": the maximal stretches of a string that
    hold no white space.  [word] is the token being read. *)
Fixpoint tokens_from (word s : jsstring) : list jsstring :=
  match s with
  | [] => match word with [] => [] | _ :: _ => [word] end
  | c :: t =>
      if isWhiteSpace c then
        match word with
        | [] => tokens_from [] t
        | _ :: _ => word :: tokens_from [] t
        end
      else tokens_from (word ++ [c]) t
  end.

Definition tokens (s : jsstring) : list jsstring := tokens_from [] s.

(** The label block taken from the first opening brace to the last
    closing brace.  A block does not run over a line terminator: the
    closing brace is the last one before the next terminator, and the
    opening brace is the first one that has a closing brace in reach. *)
Fixpoint until_terminator (s : jsstring) : jsstring :=
  match s with
  | [] => []
  | c :: t => if isLineTerminator c then [] else c :: until_terminator t
  end.

(** Where the last closing brace of [s] stands. *)
Fixpoint last_rbrace (s : jsstring) : option nat :=
  match s with
  | [] => None
  | c :: t =>
      match last_rbrace t with
      | Some j => Some (S j)
      | None => if N.eqb c ch_rbrace then Some 0 else None
      end
  end.

Fixpoint strip_label_block (line : jsstring) : jsstring :=
  match line with
  | [] => []
  | c :: t =>
      if N.eqb c ch_lbrace then
        match last_rbrace (until_terminator t) with
        | Some j => drop (S j) t
        | None => c :: strip_label_block t
        end
      else c :: strip_label_block t
  end.

(** A line made of exactly two whitespace-separated tokens once its label
    block is stripped, or a comment. *)
Definition two_token_line (line : jsstring) : Prop :=
  (exists rest, line = ch_hash :: rest) \/
  List.length (tokens (strip_label_block line)) = 2.

(** A line with exactly one space character once its label block is
    stripped, or a comment. *)
Definition one_space_line (line : jsstring) : Prop :=
  (exists rest, line = ch_hash :: rest) \/
  one_separating_space (strip_label_block line).

Definition whitespace_only (line : jsstring) : Prop :=
  Forall (fun c => isWhiteSpace c = true) line.

(** "Capability": what a probe of [path] finds, read off the outcome of
    its request. *)
Definition probed (asyncHttpRequest : request_options -> completion response)
    (host : jsstring) (port : Z) (path : jsstring) : bool :=
  match asyncHttpRequest {| opt_host := host; opt_port := port;
                            opt_path := path; opt_method := lit "GET" |} with
  | Throws _ => false
  | Returns res =>
      Z.eqb (statusCode res) 200 && negb (str_eqb (body res) [])
      && (isAppmetricsFormat (body res) || isPrometheusFormat (body res))
  end.

(** An entry is capable when the capability map holds [true] for its
    endpoint. *)
Definition capable (endpoints : gmap jsstring bool) (e : metric_endpoint) : Prop :=
  endpoints !! endpoint e = Some true.

#[global] Instance capable_dec endpoints e : Decision (capable endpoints e).
Proof. unfold capable. apply _. Defined.

(** The dashboard target made of a winning entry. *)
Definition target (projectID language : jsstring) (e : metric_endpoint)
  : dashboard :=
  {| dash_hosting := Some (hosting e);
     dash_path := getDashboardPath (hosting e) (endpoint e) projectID language |}.

(** "No tier matches". *)
Definition no_target : dashboard := {| dash_hosting := None; dash_path := None |}.

End Spec.

Module ServerSpec.

Import PerformanceServer.










(** No property of [loadProcess] and no run stands under a name
    [Object.prototype] defines. *)
Definition plain_keys (st : server) : Prop :=
  (forall k, inherited k = true -> loadProcess st !! k = None)
  /\ (forall r c, runs st !! r = Some c ->
                  inherited (projectID (options c)) = false).

(** A status of the 4xx class. *)
Definition is_client_error (code : Z) : Prop := (400 <= code < 500)%Z.

(** What holds of the server whatever it has been through: a run that has
    not ended is the one [loadProcess] holds for its project, a child held
    by [loadProcess] is a run of that project that has not ended, a run
    has emitted one terminal event if it has ended and none if not, and
    nothing is emitted in the name of a run not yet started. *)
Record invariant (st : server) : Prop := {
  inv_registered :
    forall r c, runs st !! r = Some c -> ended c = false ->
                loadProcess st !! projectID (options c) = Some (ChildProcess r);
  inv_entry_live :
    forall k r, loadProcess st !! k = Some (ChildProcess r) ->
                exists c, runs st !! r = Some c /\ ended c = false
                          /\ projectID (options c) = k;
  inv_terminal :
    forall r c, runs st !! r = Some c ->
                List.length (terminal_events_of_run r st)
                = if ended c then 1 else 0;
  inv_fresh :
    forall r, runs st !! r = None -> events_of_run r st = [];
}.


End ServerSpec.

Module SharedSpec.

(** The letters of ASCII, and their lower case. *)
Definition isAsciiLetter (c : char16) : Prop :=
  (97 <= c <= 122)%N \/ (65 <= c <= 90)%N.

Definition asciiLower (c : char16) : char16 :=
  if (N.leb 65 c && N.leb c 90)%bool then (c + 32)%N else c.

(** What [toLowerCase] does on a string of ASCII code units. *)
Definition toLowerCaseAscii (s : jsstring) : jsstring := List.map asciiLower s.

(** Every backslash turned into a slash. *)
Definition slashed (s : jsstring) : jsstring :=
  List.map (fun c => if N.eqb c ch_backslash then ch_slash else c) s.

(** A body written line by line, each line ended by a newline. *)
Definition terminated_lines (lines : list jsstring) : jsstring :=
  List.concat (List.map (fun line => line ++ [ch_lf]) lines).

(** The marker [isAppmetricsFormat] looks for. *)
Definition graphmetrics_marker : jsstring :=
  lit "src=" ++ ch_dquote :: lit "graphmetrics/js".

End SharedSpec.

Module CheckerSpec.

Import MetricsStatusChecker.

(** The languages that have a build file to look into. *)
Definition supported_languages : list jsstring :=
  [lit "java"; lit "nodejs"; lit "javascript"; lit "swift"].

(** A manifest that lists [appmetrics-dash] among its dependencies: an
    object whose [dependencies] is an object whose [appmetrics-dash]
    counts as true. *)
Definition has_appmetrics_dependency {number : Type}
    (number_truthy : number -> bool) (packageJSON : json number) : Prop :=
  exists props deps dash,
    packageJSON = JObject props
    /\ own_property props (lit "dependencies") = Some (JObject deps)
    /\ own_property deps (lit "appmetrics-dash") = Some dash
    /\ json_truthy number_truthy (Some dash) = true.

(** Numbers for the examples: integers, which count as true unless
    zero. *)
Definition nonzero (n : Z) : bool := negb (Z.eqb n 0).

(** The text occurs somewhere in the contents. *)
Definition occurs_in (text contents : jsstring) : Prop :=
  exists before after, contents = before ++ text ++ after.

End CheckerSpec.

Module LifecycleSpec.

Import PerformanceServer.

(** The project an event is about. *)
Definition event_project (e : event) : jsstring :=
  match e with
  | starting k | started k | cancelled k => k
  | loadrunError _ _ k => k
  | completed _ k => k
  end.

(** The events of a run, from first to last: [starting], [started], and
    once the run has ended one terminal event, all about its project. *)
Definition lifecycle (c : run_state) (events : list event) : Prop :=
  let k := projectID (options c) in
  if ended c
  then exists e, events = [starting k; started k; e]
                 /\ is_terminal e = true /\ event_project e = k
  else events = [starting k; started k].

(** Every run started so far has had its events in that order. *)
Definition lifecycles (st : server) : Prop :=
  forall r c, runs st !! r = Some c -> lifecycle c (events_of_run r st).

(** The run after [kill('SIGKILL')] has been called on its child. *)
Definition killed (c : run_state) : run_state :=
  {| options := options c; output := output c; errOutput := errOutput c;
     kills := kills c ++ [lit "SIGKILL"]; ended := ended c |}.

(** The inputs by which the child of run [r] reports its end. *)
Definition ends_run (r : nat) (i : input) : Prop :=
  (exists code signal, i = exit r code signal) \/ i = error r.

(** The project an input is about, and the run it reaches: a request
    names its project, a report of a child belongs to the run of that
    child, and a cancellation reaches the run [loadProcess] holds for the
    project. *)
Definition input_project (st : server) (i : input) : option jsstring :=
  match i with
  | runload b | cancelLoad b => Some (projectID b)
  | stdout_data r _ | stderr_data r _ | exit r _ _ | error r =>
      match runs st !! r with
      | Some c => Some (projectID (options c))
      | None => None
      end
  end.

Definition input_run (st : server) (i : input) : option nat :=
  match i with
  | runload _ => None
  | cancelLoad b =>
      match loadProcess st !! projectID b with
      | Some (ChildProcess r) => Some r
      | _ => None
      end
  | stdout_data r _ | stderr_data r _ | exit r _ _ | error r => Some r
  end.

End LifecycleSpec.

Import MetricsStatusChecker.
Import Spec.

(** ** The exposition-format classifier *)

Section Strings.

Lemma split_length (sep : char16) (s : jsstring) :
  List.length (split sep s) = S (count_char sep s).
Proof.
  induction s as [|c t IH]; simpl; [reflexivity|].
  destruct (N.eqb c sep); simpl.
  - now rewrite IH.
  - destruct (split sep t) as [|h r]; simpl in *; lia.
Qed.

Lemma count_char_zero (c : char16) (s : jsstring) :
  count_char c s = 0 <-> c ∉ s.
Proof.
  induction s as [|d t IH]; simpl.
  - split; [intros _; apply not_elem_of_nil | reflexivity].
  - rewrite not_elem_of_cons. destruct (N.eqb_spec d c) as [->|Hne].
    + split; [discriminate | intros [Hc _]; congruence].
    + simpl. rewrite IH. split; [intros H; split; [congruence|exact H] | tauto].
Qed.

Lemma count_char_app (c : char16) (a b : jsstring) :
  count_char c (a ++ b) = count_char c a + count_char c b.
Proof. induction a as [|d a IH]; simpl; [reflexivity | rewrite IH; lia]. Qed.

Lemma count_char_one (c : char16) (s : jsstring) :
  count_char c s = 1 <->
  exists a b : jsstring, s = a ++ c :: b /\ (c ∉ a) /\ (c ∉ b).
Proof.
  split.
  - induction s as [|d t IH]; simpl; [discriminate|].
    destruct (N.eqb_spec d c) as [->|Hne]; simpl; intros H.
    + exists [], t. split; [reflexivity|]. split; [apply not_elem_of_nil|].
      apply count_char_zero. lia.
    + destruct (IH H) as (a & b & -> & Ha & Hb).
      exists (d :: a), b. split; [reflexivity|]. split; [|exact Hb].
      rewrite not_elem_of_cons. split; [congruence | exact Ha].
  - intros (a & b & -> & Ha & Hb).
    rewrite count_char_app. simpl. rewrite N.eqb_refl.
    apply count_char_zero in Ha, Hb. lia.
Qed.

(** The test [(validatedLine.split(" ").length-1) === 1] of the source. *)
Lemma validMetric_spec (s : jsstring) :
  Z.eqb (Z.of_nat (List.length (split ch_space s)) - 1) 1 = true <->
  one_separating_space s.
Proof.
  rewrite split_length, Z.eqb_eq. unfold one_separating_space.
  rewrite <- count_char_one. lia.
Qed.

Lemma startsWith_hash (line : jsstring) :
  startsWith line (lit "#") = true <-> exists rest, line = ch_hash :: rest.
Proof.
  destruct line as [|c t]; simpl.
  - split; [discriminate | intros [? ?]; discriminate].
  - rewrite andb_true_iff. destruct t; rewrite N.eqb_eq; unfold ch_hash;
      (split; [intros [-> _]; eauto | intros [? [= -> _]]; auto]).
Qed.

Lemma validPrometheusLine_spec (line : jsstring) :
  validPrometheusLine line = true <-> line_valid line.
Proof.
  unfold validPrometheusLine, line_valid.
  rewrite orb_true_iff, startsWith_hash, validMetric_spec. reflexivity.
Qed.

Lemma filter_all_length {A} (f : A -> bool) (l : list A) :
  Nat.eqb (List.length l) (List.length (List.filter f l)) = true <->
  forall x, In x l -> f x = true.
Proof.
  rewrite Nat.eqb_eq. induction l as [|a l IH]; simpl.
  - split; [intros _ x [] | reflexivity].
  - pose proof (List.filter_length_le f l) as Hle.
    destruct (f a) eqn:Hfa; simpl.
    + split.
      * intros H x [<-|Hx]; [exact Hfa|]. apply IH; [lia | exact Hx].
      * intros H. f_equal. apply IH. intros x Hx. apply H. now right.
    + split; [lia|]. intros H. specialize (H a (or_introl eq_refl)). congruence.
Qed.

Lemma last_elem_cons (l l' : jsstring) (rest : list jsstring) :
  last_elem (l :: l' :: rest) = last_elem (l' :: rest).
Proof.
  unfold last_elem. simpl. now rewrite !Nat.sub_0_r.
Qed.

Lemma prometheusLines_spec (string : jsstring) :
  prometheusLines string = drop_final_empty (split ch_lf string).
Proof.
  unfold prometheusLines, pop.
  generalize (split ch_lf string) as lines.
  induction lines as [|l rest IH]; [reflexivity|].
  destruct rest as [|l' rest'].
  - destruct l; reflexivity.
  - rewrite last_elem_cons.
    change (drop_final_empty (l :: l' :: rest'))
      with (l :: drop_final_empty (l' :: rest')).
    rewrite <- IH.
    change (removelast (l :: l' :: rest')) with (l :: removelast (l' :: rest')).
    destruct (bool_decide _); reflexivity.
Qed.

Lemma isPrometheusFormat_spec (string : jsstring) :
  isPrometheusFormat string = true <->
  forall line, In line (drop_final_empty (split ch_lf string)) -> line_valid line.
Proof.
  unfold isPrometheusFormat. rewrite filter_all_length, prometheusLines_spec.
  split; intros H line Hin; apply validPrometheusLine_spec, H, Hin.
Qed.

(** *** The label block *)

Lemma match_dotstar_rbrace_none (s : jsstring) :
  ch_rbrace ∉ s -> match_dotstar_rbrace s = None.
Proof.
  induction s as [|c t IH]; [reflexivity|].
  rewrite not_elem_of_cons. intros [Hc Ht]. simpl.
  destruct (isLineTerminator c); [reflexivity|].
  rewrite (IH Ht). destruct (N.eqb_spec c ch_rbrace); congruence.
Qed.

(** From where the star starts, a run free of line terminators up to the
    last closing brace is what it takes. *)
Lemma match_dotstar_rbrace_last (mid post : jsstring) :
  Forall (fun c => isLineTerminator c = false) mid ->
  ch_rbrace ∉ post ->
  match_dotstar_rbrace (mid ++ ch_rbrace :: post) = Some post.
Proof.
  intros Hmid Hpost. induction Hmid as [|c mid Hc _ IH]; simpl.
  - now rewrite (match_dotstar_rbrace_none post Hpost).
  - now rewrite Hc, IH.
Qed.

Lemma replace_braces_skip (pre rest : jsstring) :
  ch_lbrace ∉ pre -> replace_braces (pre ++ rest) = pre ++ replace_braces rest.
Proof.
  induction pre as [|c pre IH]; [reflexivity|].
  rewrite not_elem_of_cons. intros [Hc Hpre]. simpl.
  destruct (N.eqb_spec c ch_lbrace) as [E|_]; [congruence|].
  now rewrite (IH Hpre).
Qed.

Lemma replace_braces_id (s : jsstring) :
  ch_lbrace ∉ s -> replace_braces s = s.
Proof.
  intros H. rewrite <- (app_nil_r s) at 1.
  rewrite (replace_braces_skip s [] H). simpl. apply app_nil_r.
Qed.

(** *** White space *)

Lemma whitespace_only_no_lbrace (line : jsstring) :
  whitespace_only line -> ch_lbrace ∉ line.
Proof.
  intros H Hin. unfold whitespace_only in H. rewrite Forall_forall in H.
  specialize (H _ Hin). vm_compute in H. discriminate.
Qed.

Lemma whitespace_only_not_comment (line : jsstring) :
  whitespace_only line -> startsWith line (lit "#") = false.
Proof.
  intros H. destruct (startsWith line (lit "#")) eqn:E; [|reflexivity].
  apply startsWith_hash in E as [rest ->].
  apply Forall_cons_1 in H as [H _]. vm_compute in H. discriminate.
Qed.

Lemma whitespace_only_valid (line : jsstring) :
  whitespace_only line ->
  validPrometheusLine line = Nat.eqb (count_char ch_space line) 1.
Proof.
  intros H. unfold validPrometheusLine.
  rewrite (whitespace_only_not_comment line H).
  rewrite (replace_braces_id line (whitespace_only_no_lbrace line H)).
  rewrite split_length. simpl.
  destruct (Nat.eqb_spec (count_char ch_space line) 1) as [->|Hne];
    [reflexivity | apply Z.eqb_neq; lia].
Qed.

Lemma invalid_line_invalid_body (line body : jsstring) :
  In line (prometheusLines body) ->
  validPrometheusLine line = false ->
  isPrometheusFormat body = false.
Proof.
  intros Hin Hline. destruct (isPrometheusFormat body) eqn:E; [|reflexivity].
  unfold isPrometheusFormat in E. rewrite filter_all_length in E.
  rewrite (E line Hin) in Hline. discriminate.
Qed.

(** The regular expression takes out the label block from the first
    opening brace to the last closing brace. *)
Lemma match_dotstar_rbrace_index (s : jsstring) :
  match_dotstar_rbrace s
  = match last_rbrace (until_terminator s) with
    | Some j => Some (drop (S j) s)
    | None => None
    end.
Proof.
  induction s as [|c t IH]; simpl; [reflexivity|].
  destruct (isLineTerminator c); simpl; [reflexivity|].
  rewrite IH. destruct (last_rbrace (until_terminator t)); [reflexivity|].
  destruct (N.eqb c ch_rbrace); reflexivity.
Qed.

Lemma replace_braces_strip (line : jsstring) :
  replace_braces line = strip_label_block line.
Proof.
  induction line as [|c t IH]; simpl; [reflexivity|].
  rewrite match_dotstar_rbrace_index, IH.
  destruct (N.eqb c ch_lbrace); [|reflexivity].
  destruct (last_rbrace (until_terminator t)); reflexivity.
Qed.

Lemma one_space_line_valid (line : jsstring) :
  one_space_line line <-> line_valid line.
Proof.
  unfold one_space_line, line_valid. now rewrite replace_braces_strip.
Qed.

End Strings.

(** *** Properties of the classifier *)

(** C3, the claim as it stands fails in both directions.  The body
    [up ] is accepted though its line is one token, not two; the body
    [a  b], two tokens kept apart by two spaces, is refused. *)
Lemma C3_two_tokens_counterexample :
  (isPrometheusFormat (lit "up ") = true
   /\ drop_final_empty (split ch_lf (lit "up ")) = [lit "up "]
   /\ tokens (strip_label_block (lit "up ")) = [lit "up"]
   /\ ~ (forall line,
           In line (drop_final_empty (split ch_lf (lit "up "))) ->
           two_token_line line))
  /\ (isPrometheusFormat (lit "a  b") = false
      /\ tokens (strip_label_block (lit "a  b")) = [lit "a"; lit "b"]
      /\ (forall line,
             In line (drop_final_empty (split ch_lf (lit "a  b"))) ->
             two_token_line line)).
Proof.
  split.
  - split; [reflexivity|]. split; [reflexivity|]. split; [reflexivity|].
    intros H. destruct (H (lit "up ")) as [[rest Hrest] | Htwo].
    + left. reflexivity.
    + discriminate Hrest.
    + vm_compute in Htwo. discriminate Htwo.
  - split; [reflexivity|]. split; [reflexivity|].
    intros line [<- | []]. right. reflexivity.
Qed.

(** C3, amended: [isPrometheusFormat] accepts a body exactly when every
    line that remains after splitting on newline and dropping a final
    empty element is valid; a line is valid when it starts with [#] or
    when what is left of it, once the label block from the first opening
    brace to the last closing brace is taken out, holds exactly one space
    character: a name, one space and a value, neither of the two with a
    space in it, but either possibly empty or with other white space in
    it.  The empty body is accepted, so is the body
    [foo_total 12\nbar{label="x"} 3\n], and [foo bar baz\n] is not; a
    space inside the label block does not count. *)
Theorem C3_isPrometheusFormat_one_space_lines :
  (forall string : jsstring,
      isPrometheusFormat string = true <->
      forall line,
        In line (drop_final_empty (split ch_lf string)) -> one_space_line line)
  /\ isPrometheusFormat [] = true
  /\ isPrometheusFormat
       (lit "foo_total 12" ++ ch_lf :: lit "bar{label=" ++ ch_dquote :: lit "x"
          ++ ch_dquote :: lit "} 3" ++ [ch_lf]) = true
  /\ isPrometheusFormat (lit "foo bar baz" ++ [ch_lf]) = false
  /\ isPrometheusFormat (lit "m{a=1, b=2} 3") = true.
Proof.
  split.
  - intros string. rewrite isPrometheusFormat_spec.
    split; intros H line Hin; apply one_space_line_valid; now apply H.
  - repeat split; vm_compute; reflexivity.
Qed.

(** C7, as the specification has it, fails on the line [a{x} b{y} 1]: the
    source removes everything from the first opening brace to the last
    closing brace, the text [ b] between the two groups included, and
    accepts the line, where removing the first group alone would leave
    two spaces. *)
Lemma C7_first_group_only_counterexample :
  replace_braces (lit "a{x} b{y} 1") = lit "a 1"
  /\ strip_first_group (lit "a{x} b{y} 1") = lit "a b{y} 1"
  /\ replace_braces (lit "a{x} b{y} 1") <> strip_first_group (lit "a{x} b{y} 1")
  /\ validPrometheusLine (lit "a{x} b{y} 1") = true
  /\ count_char ch_space (strip_first_group (lit "a{x} b{y} 1")) = 2.
Proof. repeat split; try (vm_compute; reflexivity). vm_compute. discriminate. Qed.

(** C7, amended: the stripping is greedy.  When no line terminator stands
    between the first opening brace and the last closing brace of a line,
    exactly the span from the one to the other is removed, whatever
    braces and text lie between them. *)
Theorem C7_label_block_first_to_last (pre mid post : jsstring) :
  ch_lbrace ∉ pre ->
  Forall (fun c => isLineTerminator c = false) mid ->
  ch_rbrace ∉ post ->
  replace_braces (pre ++ ch_lbrace :: mid ++ ch_rbrace :: post) = pre ++ post.
Proof.
  intros Hpre Hmid Hpost.
  rewrite (replace_braces_skip pre _ Hpre). simpl.
  now rewrite (match_dotstar_rbrace_last mid post Hmid Hpost).
Qed.

Lemma C7_label_block_first_to_last_witness :
  replace_braces (lit "a" ++ ch_lbrace :: lit "x} b{y" ++ ch_rbrace :: lit " 1")
  = lit "a" ++ lit " 1".
Proof.
  apply (C7_label_block_first_to_last (lit "a") (lit "x} b{y") (lit " 1")).
  - vm_compute. intros H. repeat (apply elem_of_cons in H as [H|H]; [discriminate|]).
    now apply elem_of_nil in H.
  - repeat constructor.
  - vm_compute. intros H. repeat (apply elem_of_cons in H as [H|H]; [discriminate|]).
    now apply elem_of_nil in H.
Defined.

(** C9, as the specification has it, fails on the line that is one space:
    it is white space only, it remains after the split, and the
    classifier accepts it and the body made of it. *)
Lemma C9_single_space_counterexample :
  whitespace_only (lit " ")
  /\ In (lit " ") (prometheusLines (lit " "))
  /\ validPrometheusLine (lit " ") = true
  /\ isPrometheusFormat (lit " ") = true.
Proof.
  split; [repeat constructor|].
  split; [left; reflexivity|].
  split; vm_compute; reflexivity.
Qed.

(** C9, amended: a line of white space only is judged by its spaces
    alone, and is invalid unless exactly one of its characters is the
    space U+0020; a body in which such an invalid line remains is
    rejected. *)
Theorem C9_whitespace_line_invalid (line body : jsstring) :
  whitespace_only line ->
  (validPrometheusLine line = false <-> count_char ch_space line <> 1)
  /\ (count_char ch_space line <> 1 ->
      In line (prometheusLines body) ->
      isPrometheusFormat body = false).
Proof.
  intros Hws.
  assert (Hline : validPrometheusLine line = false
                  <-> count_char ch_space line <> 1).
  { rewrite (whitespace_only_valid line Hws). apply Nat.eqb_neq. }
  split; [exact Hline|].
  intros Hcount Hin. apply Hline in Hcount.
  exact (invalid_line_invalid_body line body Hin Hcount).
Qed.

Lemma C9_whitespace_line_invalid_witness :
  validPrometheusLine [9%N; 9%N] = false
  /\ isPrometheusFormat (lit "up 1" ++ ch_lf :: [9%N; 9%N] ++ ch_lf :: lit "down 0")
     = false.
Proof.
  assert (Hws : whitespace_only [9%N; 9%N]) by repeat constructor.
  assert (Hcount : count_char ch_space [9%N; 9%N] <> 1)
    by (vm_compute; discriminate).
  destruct (C9_whitespace_line_invalid [9%N; 9%N]
              (lit "up 1" ++ ch_lf :: [9%N; 9%N] ++ ch_lf :: lit "down 0") Hws)
    as [Hline Hbody].
  split.
  - apply Hline, Hcount.
  - apply Hbody; [exact Hcount|]. vm_compute. right. left. reflexivity.
Defined.

(** ** The endpoint prober *)

Section ProberFacts.

Variable asyncHttpRequest : request_options -> completion response.

Lemma isMetricsEndpoint_returns (host : jsstring) (port : Z) (path : jsstring) :
  isMetricsEndpoint asyncHttpRequest host port path
  = Returns (probed asyncHttpRequest host port path).
Proof.
  unfold isMetricsEndpoint, probed.
  destruct (asyncHttpRequest _) as [res|err]; [|reflexivity].
  destruct (Z.eqb (statusCode res) 200), (str_eqb (body res) []); reflexivity.
Qed.

(** The probes of the five endpoints never fail as a whole, and the map
    they are gathered in holds, for each endpoint, what its probe found. *)
Lemma getActiveMetricsURLs_returns (host : jsstring) (port : Z) :
  exists endpoints : gmap jsstring bool,
    getActiveMetricsURLs asyncHttpRequest host port = Returns endpoints
    /\ forall e, In e VALID_METRIC_ENDPOINT.values ->
                 endpoints !! endpoint e
                 = Some (probed asyncHttpRequest host port (endpoint e)).
Proof.
  unfold getActiveMetricsURLs. simpl.
  rewrite !isMetricsEndpoint_returns. simpl.
  eexists. split; [reflexivity|].
  intros e He. simpl in He.
  repeat (destruct He as [<-|He];
          [ vm_compute endpoint;
            repeat (first [ apply lookup_insert_eq
                          | rewrite lookup_insert_ne by discriminate ]) |]).
  destruct He.
Qed.

End ProberFacts.

(** C6: a probe whose request fails, or is answered with a status other
    than 200 or with an empty body, finds no capability, and in no case
    does the probe throw; on a 200 answer with a body the capability is
    there exactly when one of the two classifiers accepts the body. *)
Theorem C6_isMetricsEndpoint_fail_closed
    (asyncHttpRequest : request_options -> completion response)
    (host : jsstring) (port : Z) (path : jsstring) :
  let options := {| opt_host := host; opt_port := port; opt_path := path;
                    opt_method := lit "GET" |} in
  let probe := isMetricsEndpoint asyncHttpRequest host port path in
  (exists capability, probe = Returns capability)
  /\ (forall err, asyncHttpRequest options = Throws err -> probe = Returns false)
  /\ (forall res, asyncHttpRequest options = Returns res ->
        statusCode res <> 200%Z \/ body res = [] -> probe = Returns false)
  /\ (forall res, asyncHttpRequest options = Returns res ->
        statusCode res = 200%Z -> body res <> [] ->
        exists capability,
          probe = Returns capability
          /\ (capability = true <->
              isAppmetricsFormat (body res) = true
              \/ isPrometheusFormat (body res) = true)).
Proof.
  intros options probe. subst probe options.
  split; [rewrite isMetricsEndpoint_returns; eauto|].
  unfold isMetricsEndpoint.
  split; [intros err ->; reflexivity|].
  split.
  - intros res -> [Hs|Hb].
    + apply Z.eqb_neq in Hs. now rewrite Hs.
    + rewrite Hb. unfold str_eqb. rewrite bool_decide_eq_true_2 by reflexivity.
      now rewrite orb_true_r.
  - intros res -> Hs Hb. apply Z.eqb_eq in Hs. rewrite Hs.
    unfold str_eqb. rewrite bool_decide_eq_false_2 by exact Hb. simpl.
    eexists. split; [reflexivity|]. apply orb_true_iff.
Qed.

Lemma C6_isMetricsEndpoint_fail_closed_witness :
  let refused (_ : request_options) : completion response :=
    Throws (lit "ECONNREFUSED") in
  let not_found (_ : request_options) : completion response :=
    Returns {| statusCode := 404; body := lit "up 1" |} in
  let metrics (_ : request_options) : completion response :=
    Returns {| statusCode := 200; body := lit "up 1" |} in
  isMetricsEndpoint refused (lit "localhost") 9080 (lit "/metrics") = Returns false
  /\ isMetricsEndpoint not_found (lit "localhost") 9080 (lit "/metrics")
     = Returns false
  /\ exists capability,
       isMetricsEndpoint metrics (lit "localhost") 9080 (lit "/metrics")
       = Returns capability
       /\ (capability = true <->
           isAppmetricsFormat (lit "up 1") = true
           \/ isPrometheusFormat (lit "up 1") = true).
Proof.
  intros refused not_found metrics.
  split; [|split].
  - apply (C6_isMetricsEndpoint_fail_closed refused _ _ _) with (err := lit "ECONNREFUSED").
    reflexivity.
  - apply (C6_isMetricsEndpoint_fail_closed not_found _ _ _)
      with (res := {| statusCode := 404; body := lit "up 1" |});
      [reflexivity | left; discriminate].
  - apply (C6_isMetricsEndpoint_fail_closed metrics _ _ _)
      with (res := {| statusCode := 200; body := lit "up 1" |});
      [reflexivity | reflexivity | discriminate].
Defined.

(** ** The dashboard resolver *)

(** C8, as the specification has it, fails for a Java project on the
    performance container: the path the source builds starts with
    [/performance] and names the project with [projectID], not [runID]. *)
Lemma C8_shared_container_path_counterexample :
  getDashboardPath performanceContainer (lit "/metrics") (lit "p1") (lit "java")
  = Some (lit "/performance/monitor/dashboard/java?theme=dark&projectID=p1")
  /\ getDashboardPath performanceContainer (lit "/metrics") (lit "p1") (lit "java")
     <> Some (lit "/monitor/dashboard/java?theme=dark&runID=p1").
Proof. split; [vm_compute; reflexivity | vm_compute; discriminate]. Qed.

(** C8, amended: for a dashboard hosted by the project the path is
    [<endpoint>/?theme=dark]; for one hosted by the performance container
    it is [/performance/monitor/dashboard/<language>?theme=dark&projectID=<id>]
    when the language is java or nodejs, and null for any other
    language. *)
Theorem C8_getDashboardPath (projectMetricEndpoint projectID language : jsstring) :
  getDashboardPath project projectMetricEndpoint projectID language
  = Some (projectMetricEndpoint ++ lit "/?theme=dark")
  /\ (language = lit "java" \/ language = lit "nodejs" ->
      getDashboardPath performanceContainer projectMetricEndpoint projectID language
      = Some (lit "/performance/monitor/dashboard/" ++ language
                ++ lit "?theme=dark&projectID=" ++ projectID))
  /\ (language <> lit "java" -> language <> lit "nodejs" ->
      getDashboardPath performanceContainer projectMetricEndpoint projectID language
      = None).
Proof.
  unfold getDashboardPath. split; [reflexivity|]. split.
  - intros H. rewrite bool_decide_eq_false_2 by discriminate.
    rewrite (bool_decide_eq_true_2 (language ∈ _)); [reflexivity|].
    destruct H as [-> | ->]; [left | right; left].
  - intros Hj Hn. rewrite bool_decide_eq_false_2 by discriminate.
    rewrite (bool_decide_eq_false_2 (language ∈ _)); [reflexivity|].
    intros H. apply elem_of_cons in H as [H|H]; [congruence|].
    apply elem_of_cons in H as [H|H]; [congruence|]. now apply elem_of_nil in H.
Qed.

Lemma C8_getDashboardPath_witness :
  getDashboardPath performanceContainer (lit "/metrics") (lit "p1") (lit "nodejs")
  = Some (lit "/performance/monitor/dashboard/" ++ lit "nodejs"
            ++ lit "?theme=dark&projectID=" ++ lit "p1")
  /\ getDashboardPath performanceContainer (lit "/metrics") (lit "p1") (lit "swift")
     = None.
Proof.
  split.
  - apply (C8_getDashboardPath (lit "/metrics") (lit "p1") (lit "nodejs")).
    right. reflexivity.
  - apply (C8_getDashboardPath (lit "/metrics") (lit "p1") (lit "swift"));
      vm_compute; discriminate.
Defined.

Section Resolver.

Variable endpoints : gmap jsstring bool.
Variables projectID projectLanguage : jsstring.

Lemma isDashboardCandidate_metrics :
  isDashboardCandidate endpoints projectLanguage VALID_METRIC_ENDPOINT.metrics
  = bool_decide (projectLanguage = lit "java"
                 /\ capable endpoints VALID_METRIC_ENDPOINT.metrics).
Proof.
  unfold isDashboardCandidate, str_eqb, capable.
  rewrite (bool_decide_eq_true_2 (endpoint _ = endpoint _)) by reflexivity.
  simpl. destruct (decide (projectLanguage = lit "java")) as [Hj|Hj].
  - rewrite (bool_decide_eq_true_2 _ Hj). simpl.
    apply bool_decide_ext. tauto.
  - rewrite (bool_decide_eq_false_2 _ Hj). simpl.
    symmetry. apply bool_decide_eq_false_2. tauto.
Qed.

Lemma isDashboardCandidate_legacy (e : metric_endpoint) :
  endpoint e <> endpoint VALID_METRIC_ENDPOINT.metrics ->
  isDashboardCandidate endpoints projectLanguage e
  = bool_decide (capable endpoints e).
Proof.
  intros H. unfold isDashboardCandidate, str_eqb.
  rewrite (bool_decide_eq_false_2 _ H). simpl.
  apply bool_decide_ext. reflexivity.
Qed.

(** The search through [prioritisedReturnOrder], one entry after the
    other. *)
Lemma resolveDashboard_cases :
  resolveDashboard endpoints projectID projectLanguage =
  if decide (projectLanguage = lit "java"
             /\ capable endpoints VALID_METRIC_ENDPOINT.metrics)
  then target projectID projectLanguage VALID_METRIC_ENDPOINT.metrics
  else if decide (capable endpoints VALID_METRIC_ENDPOINT.appmetricsDash)
  then target projectID projectLanguage VALID_METRIC_ENDPOINT.appmetricsDash
  else if decide (capable endpoints VALID_METRIC_ENDPOINT.javametricsDash)
  then target projectID projectLanguage VALID_METRIC_ENDPOINT.javametricsDash
  else if decide (capable endpoints VALID_METRIC_ENDPOINT.swiftmetricsDash)
  then target projectID projectLanguage VALID_METRIC_ENDPOINT.swiftmetricsDash
  else no_target.
Proof.
  unfold resolveDashboard, prioritisedReturnOrder. simpl List.find.
  rewrite isDashboardCandidate_metrics.
  rewrite !isDashboardCandidate_legacy by (vm_compute; discriminate).
  repeat (destruct (decide _) as [Hc|Hc];
          [ rewrite (bool_decide_eq_true_2 _ Hc); reflexivity
          | rewrite (bool_decide_eq_false_2 _ Hc); clear Hc ]).
  reflexivity.
Qed.

Lemma target_has_path (e : metric_endpoint) :
  hosting e = project \/ projectLanguage = lit "java" ->
  dash_path (target projectID projectLanguage e) <> None.
Proof.
  unfold target, getDashboardPath. simpl. intros [H | H].
  - now rewrite H.
  - destruct (hosting e); simpl; [discriminate|].
    rewrite (bool_decide_eq_true_2 (projectLanguage ∈ _)); [discriminate|].
    rewrite H. left.
Qed.

(** C1: the resolver goes through the fixed list in order and returns the
    first entry that qualifies.  [/metrics] qualifies only for a java
    project that has the capability, and is passed over for every other
    language whatever the map says; then [/appmetrics-dash],
    [/javametrics-dash] and [/swiftmetrics-dash] qualify by capability
    alone, in that order; when none qualifies the result is no hosting
    and no path, which is a value and not an error. *)
Theorem C1_resolve_priority :
  resolveDashboard endpoints projectID projectLanguage =
  if decide (projectLanguage = lit "java"
             /\ capable endpoints VALID_METRIC_ENDPOINT.metrics)
  then target projectID projectLanguage VALID_METRIC_ENDPOINT.metrics
  else if decide (capable endpoints VALID_METRIC_ENDPOINT.appmetricsDash)
  then target projectID projectLanguage VALID_METRIC_ENDPOINT.appmetricsDash
  else if decide (capable endpoints VALID_METRIC_ENDPOINT.javametricsDash)
  then target projectID projectLanguage VALID_METRIC_ENDPOINT.javametricsDash
  else if decide (capable endpoints VALID_METRIC_ENDPOINT.swiftmetricsDash)
  then target projectID projectLanguage VALID_METRIC_ENDPOINT.swiftmetricsDash
  else no_target.
Proof. exact resolveDashboard_cases. Qed.

(** C10: what the resolver returns has no path exactly when it has no
    hosting: an entry hosted by the project always has a path, and the one
    entry of the list hosted by the performance container, [/metrics],
    wins for java only, for which the path is defined. *)
Theorem C10_null_path_iff_null_hosting :
  dash_path (resolveDashboard endpoints projectID projectLanguage) = None <->
  dash_hosting (resolveDashboard endpoints projectID projectLanguage) = None.
Proof.
  rewrite resolveDashboard_cases.
  repeat (destruct (decide _) as [Hc|_];
          [ split; [ intros H; exfalso; revert H; apply target_has_path;
                     first [ left; reflexivity | right; tauto ]
                   | discriminate ] |]).
  split; reflexivity.
Qed.

End Resolver.

(** The whole of [getMetricsDashboardHostAndPath]: it never throws, and
    what it returns is resolved from a map that holds what each probe
    found. *)
Lemma getMetricsDashboardHostAndPath_returns
    (asyncHttpRequest : request_options -> completion response)
    (host : jsstring) (port : Z) (projectID projectLanguage : jsstring) :
  exists endpoints : gmap jsstring bool,
    getMetricsDashboardHostAndPath asyncHttpRequest host port projectID
      projectLanguage
    = Returns (resolveDashboard endpoints projectID projectLanguage)
    /\ forall e, In e prioritisedReturnOrder ->
                 endpoints !! endpoint e
                 = Some (probed asyncHttpRequest host port (endpoint e)).
Proof.
  destruct (getActiveMetricsURLs_returns asyncHttpRequest host port)
    as (endpoints & Heq & Hlookup).
  exists endpoints. unfold getMetricsDashboardHostAndPath. rewrite Heq.
  split; [reflexivity|]. intros e He. apply Hlookup.
  simpl in He |- *. tauto.
Qed.

(** ** The load-run orchestrator *)

Import PerformanceServer.
Import ServerSpec.

Section Traces.

Lemma run_trace_snoc (st : server) (tr : list input) (i : input) :
  run_trace st (tr ++ [i]) = step (run_trace st tr) i.
Proof. unfold run_trace. now rewrite fold_left_app. Qed.

Lemma admissible_trace_snoc (st : server) (tr : list input) (i : input) :
  admissible_trace st (tr ++ [i])
  = admissible_trace st tr && admissible (run_trace st tr) i.
Proof.
  revert st. induction tr as [|j tr IH]; intros st; simpl.
  - now rewrite andb_true_r.
  - rewrite IH. now rewrite andb_assoc.
Qed.

(** Induction along the admissible traces, one more input at a time. *)
Lemma trace_ind (P : list input -> server -> Prop) :
  P [] initial ->
  (forall tr i,
      admissible_trace initial tr = true ->
      admissible (run_trace initial tr) i = true ->
      P tr (run_trace initial tr) ->
      P (tr ++ [i]) (step (run_trace initial tr) i)) ->
  forall tr, admissible_trace initial tr = true -> P tr (run_trace initial tr).
Proof.
  intros Hinit Hstep tr. induction tr as [|i tr IH] using rev_ind.
  - intros _. exact Hinit.
  - rewrite admissible_trace_snoc, run_trace_snoc.
    intros [Htr Hi]%andb_true_iff. apply Hstep; auto.
Qed.



(** *** Reading [loadProcess] *)

Lemma truthy_at_false (own : gmap jsstring slot) (k : jsstring) :
  truthy_at own k = false ->
  truthy (own !! k) = false /\ reads_inherited own k = false.
Proof. unfold truthy_at. apply orb_false_iff. Qed.

Lemma truthy_at_own (own : gmap jsstring slot) (k : jsstring) (v : slot) :
  own !! k = Some v -> truthy_at own k = truthy (Some v).
Proof.
  intros H. unfold truthy_at, reads_inherited. rewrite H.
  rewrite bool_decide_eq_false_2 by discriminate. simpl. apply orb_false_r.
Qed.

Lemma truthy_at_none (own : gmap jsstring slot) (k : jsstring) :
  own !! k = None -> truthy_at own k = inherited k.
Proof.
  intros H. unfold truthy_at, reads_inherited. rewrite H.
  rewrite bool_decide_eq_true_2 by reflexivity. reflexivity.
Qed.

End Traces.

Section Events.

Lemma events_of_run_same (r : nat) (st st' : server) :
  emitted st' = emitted st -> events_of_run r st' = events_of_run r st.
Proof. unfold events_of_run. now intros ->. Qed.

Lemma terminal_events_same (r : nat) (st st' : server) :
  emitted st' = emitted st ->
  terminal_events_of_run r st' = terminal_events_of_run r st.
Proof.
  intros H. unfold terminal_events_of_run. now rewrite (events_of_run_same r st st' H).
Qed.

Lemma events_of_run_emit (r r' : nat) (e : event) (st : server) :
  events_of_run r (io_emit r' e st)
  = events_of_run r st ++ (if Nat.eqb r' r then [e] else []).
Proof.
  unfold events_of_run, io_emit. simpl.
  rewrite List.filter_app, List.map_app. simpl.
  destruct (Nat.eqb r' r); reflexivity.
Qed.

Lemma terminal_events_emit (r r' : nat) (e : event) (st : server) :
  terminal_events_of_run r (io_emit r' e st)
  = terminal_events_of_run r st
    ++ (if Nat.eqb r' r && is_terminal e then [e] else []).
Proof.
  unfold terminal_events_of_run. rewrite events_of_run_emit, List.filter_app.
  destruct (Nat.eqb r' r); simpl; [|reflexivity].
  destruct (is_terminal e); reflexivity.
Qed.

End Events.

Section Invariant.

Lemma terminal_events_emit_other (r r' : nat) (e : event) (st : server) :
  is_terminal e = false ->
  terminal_events_of_run r (io_emit r' e st) = terminal_events_of_run r st.
Proof.
  intros H. rewrite terminal_events_emit, H, andb_false_r. apply app_nil_r.
Qed.

Lemma invariant_initial : invariant initial.
Proof.
  split.
  - intros r c H. discriminate.
  - intros k r H. simpl in H. rewrite lookup_empty in H. discriminate.
  - intros r c H. discriminate.
  - reflexivity.
Qed.

(** A step that leaves [loadProcess] and the events alone, and of the
    runs changes neither the options nor whether they have ended. *)
Lemma invariant_same_shape (st st' : server) :
  loadProcess st' = loadProcess st ->
  emitted st' = emitted st ->
  (forall r, match runs st !! r, runs st' !! r with
             | Some c, Some c' => options c' = options c /\ ended c' = ended c
             | None, None => True
             | _, _ => False
             end) ->
  invariant st -> invariant st'.
Proof.
  intros Hlp Hem Hruns [H1 H2 H3 H4]. split.
  - intros r c' Hr He. specialize (Hruns r). rewrite Hr in Hruns.
    destruct (runs st !! r) as [c|] eqn:Hc; [|contradiction].
    destruct Hruns as [Ho Hd]. rewrite Hlp, Ho. apply H1; congruence.
  - intros k r Hk. rewrite Hlp in Hk. destruct (H2 k r Hk) as (c & Hc & He & Hkey).
    specialize (Hruns r). rewrite Hc in Hruns.
    destruct (runs st' !! r) as [c'|]; [|contradiction].
    destruct Hruns as [Ho Hd]. exists c'. repeat split; congruence.
  - intros r c' Hr. specialize (Hruns r). rewrite Hr in Hruns.
    destruct (runs st !! r) as [c|] eqn:Hc; [|contradiction].
    destruct Hruns as [Ho Hd].
    rewrite (terminal_events_same r st st' Hem), Hd. now apply H3.
  - intros r Hr. specialize (Hruns r). rewrite Hr in Hruns.
    destruct (runs st !! r) as [c|] eqn:Hc; [contradiction|].
    rewrite (events_of_run_same r st st' Hem). now apply H4.
Qed.

Lemma invariant_set_run (st : server) (r : nat) (c c' : run_state) :
  runs st !! r = Some c ->
  options c' = options c -> ended c' = ended c ->
  invariant st -> invariant (set_run r c' st).
Proof.
  intros Hr Ho He. apply invariant_same_shape; try reflexivity.
  intros r0. simpl. destruct (decide (r = r0)) as [<-|Hne].
  - rewrite Hr, list_lookup_insert_eq by (eapply lookup_lt_Some; eauto). auto.
  - rewrite list_lookup_insert_ne by exact Hne.
    destruct (runs st !! r0); auto.
Qed.

(** The end of a run: its entry is cleared and one terminal event goes
    out. *)
Lemma invariant_end (st : server) (r : nat) (c : run_state) (e : event) :
  runs st !! r = Some c -> ended c = false -> is_terminal e = true ->
  invariant st ->
  invariant (io_emit r e
               (set_loadProcess (projectID (options c)) Null (mark_ended r c st))).
Proof.
  intros Hr He Hte [H1 H2 H3 H4].
  assert (Hlt : r < List.length (runs st)) by (eapply lookup_lt_Some; eauto).
  split; simpl.
  - intros r0 c0 Hr0 He0. destruct (decide (r = r0)) as [<-|Hne].
    + rewrite list_lookup_insert_eq in Hr0 by exact Hlt.
      injection Hr0 as <-. discriminate.
    + rewrite list_lookup_insert_ne in Hr0 by exact Hne.
      pose proof (H1 r0 c0 Hr0 He0) as Hreg.
      rewrite lookup_insert_ne; [exact Hreg|].
      intros Hk. rewrite <- Hk, (H1 r c Hr He) in Hreg. congruence.
  - intros k r0 Hk. destruct (decide (projectID (options c) = k)) as [<-|Hne].
    + rewrite lookup_insert_eq in Hk. discriminate.
    + rewrite lookup_insert_ne in Hk by exact Hne.
      destruct (H2 k r0 Hk) as (c0 & Hc0 & He0 & Hkey).
      exists c0. rewrite list_lookup_insert_ne; [auto|].
      intros <-. congruence.
  - intros r0 c0 Hr0.
    rewrite terminal_events_emit, length_app.
    rewrite (terminal_events_same r0 st (set_loadProcess _ _ (mark_ended r c st)))
      by reflexivity.
    destruct (decide (r = r0)) as [<-|Hne].
    + rewrite list_lookup_insert_eq in Hr0 by exact Hlt.
      injection Hr0 as <-. simpl.
      rewrite (H3 r c Hr), He, Nat.eqb_refl, Hte. reflexivity.
    + rewrite list_lookup_insert_ne in Hr0 by exact Hne.
      rewrite (H3 r0 c0 Hr0).
      apply Nat.eqb_neq in Hne. rewrite Hne. simpl. lia.
  - intros r0 Hr0. apply list_lookup_insert_None in Hr0.
    rewrite events_of_run_emit.
    rewrite (events_of_run_same r0 st (set_loadProcess _ _ (mark_ended r c st)))
      by reflexivity.
    rewrite (H4 r0 Hr0).
    destruct (Nat.eqb_spec r r0) as [<-|_]; [congruence | reflexivity].
Qed.

(** A start that is accepted. *)
Lemma invariant_runLoad (st : server) (b : req_body) :
  truthy (loadProcess st !! projectID b) = false ->
  invariant st -> invariant (runLoad b st).
Proof.
  intros Hfree [H1 H2 H3 H4].
  assert (Hnew : runs st !! List.length (runs st) = None)
    by (apply lookup_ge_None_2; lia).
  split; unfold runLoad.
  - simpl. intros r0 c0 Hr0 He0.
    apply lookup_snoc_Some in Hr0 as [[_ Hr0] | [-> <-]].
    + pose proof (H1 r0 c0 Hr0 He0) as Hreg.
      rewrite lookup_insert_ne; [exact Hreg|].
      intros Hk. rewrite Hk, Hreg in Hfree. discriminate.
    + simpl. apply lookup_insert_eq.
  - simpl. intros k r0 Hk.
    destruct (decide (projectID b = k)) as [<-|Hne].
    + rewrite lookup_insert_eq in Hk. injection Hk as <-.
      eexists. split; [apply list_lookup_middle; reflexivity|]. auto.
    + rewrite lookup_insert_ne in Hk by exact Hne.
      destruct (H2 k r0 Hk) as (c0 & Hc0 & He0 & Hkey).
      exists c0. split; [now apply lookup_app_l_Some | auto].
  - intros r0 c0 Hr0.
    rewrite terminal_events_emit_other by reflexivity.
    rewrite (terminal_events_same r0 (io_emit (List.length (runs st))
                                        (starting (projectID b)) st)
               (spawn b _)) by reflexivity.
    rewrite terminal_events_emit_other by reflexivity.
    simpl in Hr0. apply lookup_snoc_Some in Hr0 as [[_ Hr0] | [-> <-]].
    + now apply H3.
    + simpl. unfold terminal_events_of_run. now rewrite (H4 _ Hnew).
  - intros r0 Hr0. simpl in Hr0.
    assert (Hge : List.length (runs st ++ [ {| options := b; output := [];
                     errOutput := []; kills := []; ended := false |} ]) <= r0)
      by (now apply lookup_ge_None_1).
    rewrite length_app in Hge. simpl in Hge.
    rewrite events_of_run_emit.
    rewrite (events_of_run_same r0 (io_emit (List.length (runs st))
                                      (starting (projectID b)) st)
               (spawn b _)) by reflexivity.
    rewrite events_of_run_emit.
    rewrite (H4 r0) by (apply lookup_ge_None_2; lia).
    destruct (Nat.eqb_spec (List.length (runs st)) r0); [lia | reflexivity].
Qed.

End Invariant.

Section Reachable.

Lemma on_exit_eq (st : server) (r : nat) (c : run_state)
    (code : option Z) (signal : exit_signal) :
  runs st !! r = Some c ->
  exists e,
    on_exit r code signal st
    = io_emit r e
        (set_loadProcess (projectID (options c)) Null (mark_ended r c st))
    /\ is_terminal e = true.
Proof.
  intros Hr. unfold on_exit. rewrite Hr.
  destruct (is_sigkill signal); [eauto|].
  destruct (code_not_zero code); eauto.
Qed.

Lemma invariant_step (st : server) (i : input) :
  admissible st i = true -> invariant st -> invariant (step st i).
Proof.
  intros Hadm Hinv. destruct i as [b|b|r d|r d|r code signal|r]; simpl in *.
  - unfold post_runload.
    destruct (truthy_at (loadProcess st) (projectID b)) eqn:Hfree; simpl;
      [exact Hinv|].
    destruct (url_missing b); simpl; [exact Hinv|].
    apply invariant_runLoad; [|exact Hinv].
    now apply truthy_at_false in Hfree.
  - unfold post_cancelLoad.
    destruct (truthy_at (loadProcess st) (projectID b)); simpl; [|exact Hinv].
    destruct (loadProcess st !! projectID b) as [[|r]|]; simpl; try exact Hinv.
    destruct (runs st !! r) as [c|] eqn:Hr; [|exact Hinv].
    now apply (invariant_set_run st r c).
  - unfold on_stdout. destruct (runs st !! r) as [c|] eqn:Hr; [|exact Hinv].
    now apply (invariant_set_run st r c).
  - unfold on_stderr. destruct (runs st !! r) as [c|] eqn:Hr; [|exact Hinv].
    now apply (invariant_set_run st r c).
  - unfold live in Hadm. destruct (runs st !! r) as [c|] eqn:Hr; [|discriminate].
    apply negb_true_iff in Hadm.
    destruct (on_exit_eq st r c code signal Hr) as (e & -> & He).
    now apply invariant_end.
  - unfold live in Hadm. unfold on_error.
    destruct (runs st !! r) as [c|] eqn:Hr; [|discriminate].
    apply negb_true_iff in Hadm. now apply invariant_end.
Qed.

Lemma invariant_trace (tr : list input) :
  admissible_trace initial tr = true -> invariant (run_trace initial tr).
Proof.
  apply (trace_ind (fun _ st => invariant st)).
  - exact invariant_initial.
  - intros tr' i _ Hi Hinv. now apply invariant_step.
Qed.

(** *** What the listeners gather *)










End Reachable.

Section Classification.




Lemma terminal_events_at_most_one (st : server) (r : nat) :
  invariant st -> List.length (terminal_events_of_run r st) <= 1.
Proof.
  intros [_ _ H3 H4]. destruct (runs st !! r) as [c|] eqn:Hr.
  - rewrite (H3 r c Hr). destruct (ended c); lia.
  - unfold terminal_events_of_run. rewrite (H4 r Hr). simpl. lia.
Qed.

Lemma post_runload_conflict (st : server) (b : req_body) :
  truthy_at (loadProcess st) (projectID b) = true ->
  post_runload b st
  = (st, status_send 409 (lit "A load run is already in progress")).
Proof. intros H. unfold post_runload. now rewrite H. Qed.

Lemma post_runload_missing_url (st : server) (b : req_body) :
  truthy_at (loadProcess st) (projectID b) = false ->
  url_missing b = true ->
  post_runload b st = (st, sendStatus 500).
Proof. intros H Hu. unfold post_runload. now rewrite H, Hu. Qed.

Lemma post_runload_accepted (st : server) (b : req_body) :
  truthy_at (loadProcess st) (projectID b) = false ->
  url_missing b = false ->
  post_runload b st = (runLoad b st, sendStatus 202).
Proof. intros H Hu. unfold post_runload. now rewrite H, Hu. Qed.

(** *** The names [Object.prototype] defines *)

Lemma plain_keys_initial : plain_keys initial.
Proof. split; [intros k _; apply lookup_empty | intros r c H; discriminate]. Qed.

Lemma plain_keys_set_run (st : server) (r : nat) (c c' : run_state) :
  runs st !! r = Some c -> options c' = options c ->
  plain_keys st -> plain_keys (set_run r c' st).
Proof.
  intros Hr Ho [Hown Hruns]. split; [exact Hown|].
  intros r0 c0. simpl. destruct (decide (r = r0)) as [<-|Hne].
  - rewrite list_lookup_insert_eq by (eapply lookup_lt_Some; eauto).
    intros [= <-]. rewrite Ho. now apply (Hruns r).
  - rewrite list_lookup_insert_ne by exact Hne. apply Hruns.
Qed.

Lemma plain_keys_end (st : server) (r : nat) (c : run_state) (e : event) :
  runs st !! r = Some c -> plain_keys st ->
  plain_keys (io_emit r e
                (set_loadProcess (projectID (options c)) Null (mark_ended r c st))).
Proof.
  intros Hr Hplain.
  pose proof (proj2 Hplain r c Hr) as Hk.
  destruct (plain_keys_set_run st r c
              {| options := options c; output := output c;
                 errOutput := errOutput c; kills := kills c; ended := true |}
              Hr eq_refl Hplain) as [Hown Hruns].
  split; [|exact Hruns].
  intros k Hik. simpl. rewrite lookup_insert_ne; [now apply Hown|].
  intros <-. congruence.
Qed.

Lemma plain_keys_free (st : server) (k : jsstring) :
  plain_keys st -> truthy_at (loadProcess st) k = false -> inherited k = false.
Proof.
  intros [Hown _] Hfree. destruct (inherited k) eqn:Hik; [|reflexivity].
  rewrite (truthy_at_none _ _ (Hown k Hik)) in Hfree. congruence.
Qed.

(** Whatever reaches the server, no start is accepted under a name
    [Object.prototype] defines. *)
Lemma plain_keys_step (st : server) (i : input) :
  plain_keys st -> plain_keys (step st i).
Proof.
  intros Hplain. destruct i as [b|b|r d|r d|r code signal|r]; simpl.
  - unfold post_runload.
    destruct (truthy_at (loadProcess st) (projectID b)) eqn:Hfree; simpl;
      [exact Hplain|].
    destruct (url_missing b); simpl; [exact Hplain|].
    pose proof (plain_keys_free st _ Hplain Hfree) as Hk.
    destruct Hplain as [Hown Hruns]. split; simpl.
    + intros k Hik. rewrite lookup_insert_ne; [now apply Hown|].
      intros <-. congruence.
    + intros r0 c0 Hr0.
      apply lookup_snoc_Some in Hr0 as [[_ Hr0] | [_ <-]];
        [now apply (Hruns r0) | exact Hk].
  - unfold post_cancelLoad.
    destruct (truthy_at (loadProcess st) (projectID b)); simpl; [|exact Hplain].
    destruct (loadProcess st !! projectID b) as [[|r]|]; simpl; try exact Hplain.
    destruct (runs st !! r) as [c|] eqn:Hr; [|exact Hplain].
    now apply (plain_keys_set_run st r c).
  - unfold on_stdout. destruct (runs st !! r) as [c|] eqn:Hr; [|exact Hplain].
    now apply (plain_keys_set_run st r c).
  - unfold on_stderr. destruct (runs st !! r) as [c|] eqn:Hr; [|exact Hplain].
    now apply (plain_keys_set_run st r c).
  - destruct (runs st !! r) as [c|] eqn:Hr;
      [|unfold on_exit; now rewrite Hr].
    destruct (on_exit_eq st r c code signal Hr) as (e & -> & _).
    now apply plain_keys_end.
  - unfold on_error. destruct (runs st !! r) as [c|] eqn:Hr; [|exact Hplain].
    now apply plain_keys_end.
Qed.

Lemma plain_keys_trace (tr : list input) : plain_keys (run_trace initial tr).
Proof.
  induction tr as [|i tr IH] using rev_ind; [exact plain_keys_initial|].
  rewrite run_trace_snoc. now apply plain_keys_step.
Qed.

(** *** One terminal event for each report of an end *)





End Classification.




(** C4: on a server that has started nothing, a start for the project
    [constructor] is answered with the conflict status and spawns no
    worker, though the project has no run: [loadProcess], a plain object,
    reads the member it inherits from [Object.prototype] under that name
    as a run in progress.  Of two such starts in a row neither spawns a
    worker. *)
Theorem C4_inherited_key_start_refused :
  let b := {| projectID := lit "constructor"; url := Some (lit "http://x");
              payload := [] |} in
  let conflict := status_send 409 (lit "A load run is already in progress") in
  runs initial = []
  /\ loadProcess initial !! projectID b = None
  /\ post_runload b initial = (initial, conflict)
  /\ run_trace initial [runload b; runload b] = initial
  /\ post_runload b (run_trace initial [runload b]) = (initial, conflict).
Proof. repeat split. Qed.

(** C5: a start without a URL for a free project spawns nothing, stores
    nothing and emits nothing, but the status it is answered with is 500,
    which is not of the client-error class. *)
Theorem C5_missing_url_answered_500 :
  let b := {| projectID := lit "p1"; url := None; payload := [] |} in
  truthy (loadProcess initial !! projectID b) = false
  /\ url_missing b = true
  /\ post_runload b initial = (initial, sendStatus 500)
  /\ ~ is_client_error (reply_code (snd (post_runload b initial))).
Proof.
  repeat split. vm_compute. intros [_ H]. discriminate H.
Qed.

(** ** sharedFunctions.js *)

Import SharedFunctions.
Import SharedSpec.

Section SharedStrings.

Lemma split_nonempty (sep : char16) (s : jsstring) : split sep s <> [].
Proof.
  intros H. apply (f_equal (@List.length _)) in H.
  rewrite split_length in H. discriminate.
Qed.

Lemma join_cons (sep p : jsstring) (rest : list jsstring) :
  rest <> [] -> join sep (p :: rest) = p ++ sep ++ join sep rest.
Proof. destruct rest; [congruence | reflexivity]. Qed.

Lemma join_cons_char (sep : jsstring) (c : char16) (p : jsstring)
    (rest : list jsstring) :
  join sep ((c :: p) :: rest) = c :: join sep (p :: rest).
Proof. destruct rest; reflexivity. Qed.

(** Splitting on a code unit and joining with another replaces the one
    by the other. *)
Lemma join_split (sep new : char16) (s : jsstring) :
  join [new] (split sep s)
  = List.map (fun c => if N.eqb c sep then new else c) s.
Proof.
  induction s as [|c t IH]; [reflexivity|]. simpl.
  destruct (N.eqb c sep).
  - rewrite join_cons by apply split_nonempty. simpl. now rewrite IH.
  - destruct (split sep t) as [|h r] eqn:E; [now apply split_nonempty in E|].
    rewrite join_cons_char. now rewrite IH.
Qed.

Lemma slashed_no_backslash (s : jsstring) : ch_backslash ∉ slashed s.
Proof.
  unfold slashed. induction s as [|c t IH]; simpl; [apply not_elem_of_nil|].
  apply not_elem_of_cons. split; [|exact IH].
  destruct (N.eqb_spec c ch_backslash); [discriminate | congruence].
Qed.

Lemma slashed_id (s : jsstring) : ch_backslash ∉ s -> slashed s = s.
Proof.
  unfold slashed. induction s as [|c t IH]; [reflexivity|].
  rewrite not_elem_of_cons. intros [Hc Ht]. simpl.
  destruct (N.eqb_spec c ch_backslash); [congruence|]. now rewrite IH.
Qed.

Lemma isLetter_char (c : char16) : isLetter [c] = true <-> isAsciiLetter c.
Proof.
  unfold isLetter, isAsciiLetter. simpl.
  rewrite orb_true_iff, !andb_true_iff.
  assert (Hlow : forall a : N,
             (if N.ltb a c then true else if N.eqb a c then true else false) = true
             <-> (a <= c)%N).
  { intros a. destruct (N.ltb_spec a c), (N.eqb_spec a c); split; intros; try lia; auto; discriminate. }
  assert (Hup : forall a : N,
             (if N.ltb c a then true else if N.eqb c a then true else false) = true
             <-> (c <= a)%N).
  { intros a. destruct (N.ltb_spec c a), (N.eqb_spec c a); split; intros; try lia; auto; discriminate. }
  rewrite !Hlow, !Hup. reflexivity.
Qed.

Lemma isLetter_empty : isLetter [] = false.
Proof. reflexivity. Qed.

Lemma isWindowsAbsolutePath_spec (absolutePath : jsstring) :
  isWindowsAbsolutePath absolutePath = true <->
  exists drive rest,
    absolutePath = drive :: ch_colon :: rest /\ isAsciiLetter drive.
Proof.
  unfold isWindowsAbsolutePath.
  destruct absolutePath as [|d [|c rest]]; simpl.
  - split; [discriminate | intros (? & ? & ? & _); discriminate].
  - split; [discriminate | intros (? & ? & ? & _); discriminate].
  - change (charAt (d :: c :: rest) 0) with [d].
    change (charAt (d :: c :: rest) 1) with [c].
    destruct (isLetter [d]) eqn:Hd; simpl.
    + apply isLetter_char in Hd. unfold str_eqb.
      destruct (decide ([c] = lit ":")) as [Hc|Hc].
      * rewrite (bool_decide_eq_true_2 _ Hc). simpl.
        injection Hc as ->. split; [intros _; eauto | reflexivity].
      * rewrite (bool_decide_eq_false_2 _ Hc). simpl.
        split; [discriminate|]. intros (? & ? & [= -> -> ->] & _). now elim Hc.
    + split; [discriminate|]. intros (? & ? & [= -> -> ->] & Hl).
      apply isLetter_char in Hl. congruence.
Qed.

End SharedStrings.

(** X1: [convertBackSlashesToForwardSlashes] turns every backslash into
    a slash and leaves every other code unit where it is: the result has
    the length of the argument and no backslash, a string without
    backslash is returned as it is, and converting twice is converting
    once. *)
Theorem X1_convertBackSlashes (str : jsstring) :
  convertBackSlashesToForwardSlashes str = slashed str
  /\ List.length (convertBackSlashesToForwardSlashes str) = List.length str
  /\ (ch_backslash ∉ convertBackSlashesToForwardSlashes str)
  /\ (ch_backslash ∉ str -> convertBackSlashesToForwardSlashes str = str)
  /\ convertBackSlashesToForwardSlashes (convertBackSlashesToForwardSlashes str)
     = convertBackSlashesToForwardSlashes str.
Proof.
  assert (H : forall s, convertBackSlashesToForwardSlashes s = slashed s)
    by (intros s; apply join_split).
  rewrite !H. split; [reflexivity|].
  split; [apply length_map|].
  split; [apply slashed_no_backslash|].
  split; [apply slashed_id|].
  apply slashed_id, slashed_no_backslash.
Qed.

Lemma X1_convertBackSlashes_witness :
  convertBackSlashesToForwardSlashes (lit "src/app.js") = lit "src/app.js".
Proof.
  assert (Hfree : ch_backslash ∉ lit "src/app.js").
  { vm_compute. intros H.
    repeat (apply elem_of_cons in H as [H|H]; [discriminate|]).
    now apply elem_of_nil in H. }
  exact (proj1 (proj2 (proj2 (proj2
           (X1_convertBackSlashes (lit "src/app.js"))))) Hfree).
Defined.

(** X2: [isWindowsAbsolutePath] accepts exactly the paths that begin with
    an ASCII letter followed by a colon; anything shorter than two code
    units is refused. *)
Theorem X2_isWindowsAbsolutePath (absolutePath : jsstring) :
  (isWindowsAbsolutePath absolutePath = true <->
   exists drive rest,
     absolutePath = drive :: ch_colon :: rest /\ isAsciiLetter drive)
  /\ (List.length absolutePath < 2 -> isWindowsAbsolutePath absolutePath = false).
Proof.
  split; [apply isWindowsAbsolutePath_spec|].
  intros H. unfold isWindowsAbsolutePath.
  apply Nat.ltb_lt in H. now rewrite H.
Qed.

Lemma X2_isWindowsAbsolutePath_witness :
  isWindowsAbsolutePath (lit "C") = false.
Proof.
  apply (X2_isWindowsAbsolutePath (lit "C")). simpl. lia.
Defined.

Section DriveLetterFacts.

Variable toLowerCase : jsstring -> jsstring.

(** On one ASCII letter [toLowerCase] gives its lower case. *)
Hypothesis toLowerCase_letter :
  forall c, isAsciiLetter c -> toLowerCase [c] = [asciiLower c].

(** X3: [convertFromWindowsDriveLetter] returns a path that is not
    Windows-absolute as it is, and rewrites [D:rest] into [/d] followed
    by [rest] with its backslashes turned into slashes, [d] being the
    drive letter in lower case. *)
Theorem X3_convertFromWindowsDriveLetter (windowsPath : jsstring) :
  (isWindowsAbsolutePath windowsPath = false ->
   convertFromWindowsDriveLetter toLowerCase windowsPath = windowsPath)
  /\ (forall drive rest,
        windowsPath = drive :: ch_colon :: rest -> isAsciiLetter drive ->
        convertFromWindowsDriveLetter toLowerCase windowsPath
        = ch_slash :: asciiLower drive :: slashed rest).
Proof.
  unfold convertFromWindowsDriveLetter. split.
  - intros ->. reflexivity.
  - intros drive rest -> Hd.
    assert (Hw : isWindowsAbsolutePath (drive :: ch_colon :: rest) = true)
      by (apply isWindowsAbsolutePath_spec; eauto).
    rewrite Hw. simpl negb. cbv iota.
    assert (Hs : convertBackSlashesToForwardSlashes (drive :: ch_colon :: rest)
                 = drive :: ch_colon :: slashed rest).
    { unfold convertBackSlashesToForwardSlashes.
      change (lit "/") with [ch_slash]. rewrite join_split.
      change (List.map _ (drive :: ch_colon :: rest))
        with ((if N.eqb drive ch_backslash then ch_slash else drive)
                :: ch_colon :: slashed rest).
      destruct (N.eqb_spec drive ch_backslash) as [->|_]; [|reflexivity].
      unfold isAsciiLetter, ch_backslash in Hd. lia. }
    rewrite Hs. change (charAt (drive :: ch_colon :: slashed rest) 0) with [drive].
    rewrite (toLowerCase_letter drive Hd). reflexivity.
Qed.

End DriveLetterFacts.

Lemma X3_convertFromWindowsDriveLetter_witness :
  convertFromWindowsDriveLetter toLowerCaseAscii
    (lit "C:" ++ ch_backslash :: lit "helloThere")
  = lit "/c/helloThere".
Proof.
  assert (Hlower : forall c, isAsciiLetter c ->
                             toLowerCaseAscii [c] = [asciiLower c])
    by reflexivity.
  assert (Hdrive : isAsciiLetter 67%N) by (right; lia).
  exact (proj2 (X3_convertFromWindowsDriveLetter toLowerCaseAscii Hlower
                  (lit "C:" ++ ch_backslash :: lit "helloThere"))
           67%N (ch_backslash :: lit "helloThere") eq_refl Hdrive).
Defined.

(** X4: whatever [toLowerCase] does, what [convertFromWindowsDriveLetter]
    returns is never Windows-absolute, so converting a second time
    changes nothing. *)
Theorem X4_convertFromWindowsDriveLetter_idempotent
    (toLowerCase : jsstring -> jsstring) (windowsPath : jsstring) :
  isWindowsAbsolutePath (convertFromWindowsDriveLetter toLowerCase windowsPath)
  = false
  /\ convertFromWindowsDriveLetter toLowerCase
       (convertFromWindowsDriveLetter toLowerCase windowsPath)
     = convertFromWindowsDriveLetter toLowerCase windowsPath.
Proof.
  assert (H : isWindowsAbsolutePath
                (convertFromWindowsDriveLetter toLowerCase windowsPath) = false).
  { unfold convertFromWindowsDriveLetter.
    destruct (isWindowsAbsolutePath windowsPath) eqn:Hw; cbn [negb]; [|exact Hw].
    match goal with
    | |- isWindowsAbsolutePath ?out = false =>
        destruct (isWindowsAbsolutePath out) eqn:E; [|reflexivity]
    end.
    apply isWindowsAbsolutePath_spec in E as (d & rest & Heq & Hl).
    change (lit "/") with [ch_slash] in Heq. injection Heq as <- _.
    unfold isAsciiLetter, ch_slash in Hl. lia. }
  split; [exact H|].
  unfold convertFromWindowsDriveLetter at 1. now rewrite H.
Qed.

Section Assignment.

Context {V : Type}.

Lemma assign_lookup_ne (obj : gmap jsstring V) (k key : jsstring) (v : V) :
  k <> key -> assign obj k v !! key = obj !! key.
Proof.
  intros Hne. unfold assign.
  destruct (str_eqb k (lit "__proto__") && bool_decide (obj !! k = None));
    [reflexivity | now apply lookup_insert_ne].
Qed.

Lemma assign_lookup_eq (obj : gmap jsstring V) (key : jsstring) (v : V) :
  assign obj key v !! key
  = if str_eqb key (lit "__proto__") && bool_decide (obj !! key = None)
    then None else Some v.
Proof.
  unfold assign.
  destruct (str_eqb key (lit "__proto__") && bool_decide (obj !! key = None))
    eqn:E; [|apply lookup_insert_eq].
  apply andb_true_iff in E as [_ E]. now apply bool_decide_eq_true in E.
Qed.

Lemma foldr_assign_lookup (o : gmap jsstring V) (l : list (jsstring * V))
    (key : jsstring) :
  NoDup l.*1 ->
  foldr (uncurry (fun k v acc => assign acc k v)) o l !! key
  = match (list_to_map l : gmap jsstring V) !! key with
    | Some value =>
        if str_eqb key (lit "__proto__") && bool_decide (o !! key = None)
        then None else Some value
    | None => o !! key
    end.
Proof.
  induction l as [|[k v] l IH]; simpl; intros Hnd.
  - now rewrite lookup_empty.
  - apply NoDup_cons in Hnd as [Hk Hnd]. specialize (IH Hnd).
    destruct (decide (k = key)) as [->|Hne].
    + rewrite lookup_insert_eq, assign_lookup_eq.
      apply not_elem_of_list_to_map_1 in Hk.
      rewrite Hk in IH. now rewrite IH.
    + rewrite lookup_insert_ne by exact Hne.
      now rewrite assign_lookup_ne by exact Hne.
Qed.

End Assignment.

(** X5: after [updateObject], a field of the second object reads, among
    the properties of the first, as it does in the second, and any other
    field reads as it did; but a field named [__proto__] is stored only
    if the first object has a property of that name already. *)
Theorem X5_updateObject_lookup {V : Type}
    (objectToUpdate fieldsToAddToObject : gmap jsstring V) (key : jsstring) :
  updateObject objectToUpdate fieldsToAddToObject !! key
  = match fieldsToAddToObject !! key with
    | Some value =>
        if str_eqb key (lit "__proto__")
           && bool_decide (objectToUpdate !! key = None)
        then None else Some value
    | None => objectToUpdate !! key
    end.
Proof.
  unfold updateObject. rewrite map_fold_foldr.
  rewrite <- (list_to_map_to_list fieldsToAddToObject) at 2.
  apply foldr_assign_lookup, NoDup_fst_map_to_list.
Qed.

(** ** More on the classifiers *)

Section Classifiers.

Lemma startsWith_spec (s p : jsstring) :
  startsWith s p = true <-> exists post, s = p ++ post.
Proof.
  revert s. induction p as [|a p IH]; intros s; simpl.
  - destruct s; split; eauto.
  - destruct s as [|c s]; [split; [discriminate | intros [? ?]; discriminate]|].
    simpl. rewrite andb_true_iff, N.eqb_eq, IH. split.
    + intros [-> [post ->]]. eauto.
    + intros [post [= -> ->]]. eauto.
Qed.

Lemma includes_spec (s p : jsstring) :
  includes s p = true <-> exists pre post, s = pre ++ p ++ post.
Proof.
  induction s as [|c s IH].
  - change (includes [] p) with (startsWith [] p || false).
    rewrite orb_false_r, startsWith_spec. split.
    + intros [post ->]. exists [], post. reflexivity.
    + intros (pre & post & H). symmetry in H.
      apply app_eq_nil in H as [-> H]. exists post. now rewrite H.
  - change (includes (c :: s) p) with (startsWith (c :: s) p || includes s p).
    rewrite orb_true_iff, startsWith_spec, IH. split.
    + intros [[post ->] | (pre & post & ->)].
      * exists [], post. reflexivity.
      * exists (c :: pre), post. reflexivity.
    + intros (pre & post & H). destruct pre as [|d pre].
      * left. exists post. exact H.
      * right. injection H as -> ->. eauto.
Qed.

Lemma split_app_sep (sep : char16) (a r : jsstring) :
  sep ∉ a -> split sep (a ++ sep :: r) = a :: split sep r.
Proof.
  induction a as [|c a IH]; simpl.
  - intros _. now rewrite N.eqb_refl.
  - rewrite not_elem_of_cons. intros [Hc Ha].
    destruct (N.eqb_spec c sep) as [E|_]; [congruence|].
    now rewrite (IH Ha).
Qed.

Lemma split_no_sep (sep : char16) (a : jsstring) :
  sep ∉ a -> split sep a = [a].
Proof.
  induction a as [|c a IH]; [reflexivity|]. simpl.
  rewrite not_elem_of_cons. intros [Hc Ha].
  destruct (N.eqb_spec c sep) as [E|_]; [congruence|].
  now rewrite (IH Ha).
Qed.

Lemma split_terminated_lines (lines : list jsstring) :
  Forall (fun line => ch_lf ∉ line) lines ->
  split ch_lf (terminated_lines lines) = lines ++ [[]].
Proof.
  unfold terminated_lines. induction 1 as [|l ls Hl _ IH]; [reflexivity|].
  simpl. rewrite <- app_assoc. simpl.
  now rewrite (split_app_sep ch_lf l _ Hl), IH.
Qed.

Lemma last_elem_snoc (ls : list jsstring) (l : jsstring) :
  last_elem (ls ++ [l]) = Some l.
Proof.
  unfold last_elem. rewrite length_app. simpl.
  replace (List.length ls + 1 - 1) with (List.length ls) by lia.
  rewrite nth_error_app2 by lia. now rewrite Nat.sub_diag.
Qed.

(** What is left of the lines when the split ends on an empty piece. *)
Lemma pop_final_empty (ls : list jsstring) :
  (if bool_decide (last_elem (ls ++ [[]]) = Some []) then pop (ls ++ [[]])
   else ls ++ [[]]) = ls.
Proof.
  rewrite last_elem_snoc, bool_decide_eq_true_2 by reflexivity.
  unfold pop. apply removelast_last.
Qed.

Lemma prometheusLines_terminated (lines : list jsstring) :
  Forall (fun line => ch_lf ∉ line) lines ->
  prometheusLines (terminated_lines lines) = lines.
Proof.
  intros H. unfold prometheusLines.
  rewrite (split_terminated_lines lines H). apply pop_final_empty.
Qed.

Lemma split_snoc_sep (sep : char16) (s : jsstring) :
  split sep (s ++ [sep]) = split sep s ++ [[]].
Proof.
  induction s as [|c s IH]; simpl.
  - now rewrite N.eqb_refl.
  - destruct (N.eqb c sep); [now rewrite IH|].
    rewrite IH. destruct (split sep s) eqn:E; [now apply split_nonempty in E|].
    reflexivity.
Qed.

Lemma split_app (sep : char16) (a r : jsstring) :
  split sep (a ++ sep :: r) = split sep a ++ split sep r.
Proof.
  induction a as [|c a IH]; simpl.
  - now rewrite N.eqb_refl.
  - destruct (N.eqb c sep); [now rewrite IH|].
    rewrite IH. destruct (split sep a) eqn:E; [now apply split_nonempty in E|].
    reflexivity.
Qed.

Lemma validPrometheusLine_empty : validPrometheusLine [] = false.
Proof. reflexivity. Qed.

(** A piece that is not the last one survives the conditional [pop]. *)
Lemma prometheusLines_keeps (string line : jsstring)
    (before after : list jsstring) :
  split ch_lf string = before ++ line :: after -> after <> [] ->
  In line (prometheusLines string).
Proof.
  intros Hsplit Hafter. unfold prometheusLines. rewrite Hsplit.
  destruct (bool_decide _); [|apply in_elt].
  unfold pop. destruct (exists_last Hafter) as (init & final & ->).
  replace (before ++ line :: init ++ [final])
    with ((before ++ line :: init) ++ [final]) by (now rewrite <- app_assoc).
  rewrite removelast_last. apply in_elt.
Qed.

End Classifiers.

(** X6: [isAppmetricsFormat] accepts a page exactly when the marker (the
    [src] attribute that opens with [graphmetrics/js]) occurs somewhere in
    it, whatever stands before and after. *)
Theorem X6_isAppmetricsFormat_substring (html : jsstring) :
  isAppmetricsFormat html = true <->
  exists before after, html = before ++ graphmetrics_marker ++ after.
Proof. unfold isAppmetricsFormat. apply includes_spec. Qed.

(** X7: for a body written line by line, each line free of newlines and
    ended by one, the lines [isPrometheusFormat] looks at are the lines
    written, and the body is accepted exactly when each of them is
    valid. *)
Theorem X7_isPrometheusFormat_line_by_line (lines : list jsstring) :
  Forall (fun line => ch_lf ∉ line) lines ->
  prometheusLines (terminated_lines lines) = lines
  /\ (isPrometheusFormat (terminated_lines lines) = true <->
      Forall (fun line => validPrometheusLine line = true) lines).
Proof.
  intros H. pose proof (prometheusLines_terminated lines H) as Hlines.
  split; [exact Hlines|].
  unfold isPrometheusFormat. rewrite Hlines, filter_all_length.
  rewrite List.Forall_forall. reflexivity.
Qed.

Lemma X7_isPrometheusFormat_line_by_line_witness :
  isPrometheusFormat
    (terminated_lines [lit "# HELP up"; lit "up{job=a b} 1"; lit "down 0"])
  = true.
Proof.
  apply (X7_isPrometheusFormat_line_by_line
           [lit "# HELP up"; lit "up{job=a b} 1"; lit "down 0"]).
  - repeat constructor; vm_compute; intros H;
      repeat (apply elem_of_cons in H as [H|H]; [discriminate|]);
      now apply elem_of_nil in H.
  - repeat constructor.
Defined.

(** X8: one newline at the end of a body is not a line: the body with it
    is judged on the pieces of the body without it, so a body that is
    not empty and does not end with a newline is judged the same with a
    final newline added. *)
Theorem X8_isPrometheusFormat_final_newline (string : jsstring) :
  prometheusLines (string ++ [ch_lf]) = split ch_lf string
  /\ (last_elem (split ch_lf string) <> Some [] ->
      isPrometheusFormat (string ++ [ch_lf]) = isPrometheusFormat string).
Proof.
  assert (H : prometheusLines (string ++ [ch_lf]) = split ch_lf string).
  { unfold prometheusLines. rewrite split_snoc_sep. apply pop_final_empty. }
  split; [exact H|].
  intros Hlast. unfold isPrometheusFormat. rewrite H.
  unfold prometheusLines. now rewrite (bool_decide_eq_false_2 _ Hlast).
Qed.

Lemma X8_isPrometheusFormat_final_newline_witness :
  isPrometheusFormat (lit "up 1" ++ [ch_lf]) = isPrometheusFormat (lit "up 1").
Proof.
  apply (X8_isPrometheusFormat_final_newline (lit "up 1")).
  vm_compute. discriminate.
Defined.

(** X9: an empty line is never valid, so a body that starts with a
    newline, or in which two newlines follow each other, is rejected. *)
Theorem X9_isPrometheusFormat_blank_line (before after : jsstring) :
  isPrometheusFormat (ch_lf :: after) = false
  /\ isPrometheusFormat (before ++ ch_lf :: ch_lf :: after) = false.
Proof.
  split.
  - apply (invalid_line_invalid_body []); [|reflexivity].
    apply (prometheusLines_keeps _ [] [] (split ch_lf after));
      [|apply split_nonempty].
    reflexivity.
  - apply (invalid_line_invalid_body []); [|reflexivity].
    apply (prometheusLines_keeps _ [] (split ch_lf before) (split ch_lf after));
      [|apply split_nonempty].
    rewrite split_app. reflexivity.
Qed.

(** ** More on the prober and the resolver *)

Section ProbeAll.

Variable asyncHttpRequest : request_options -> completion response.
Variable host : jsstring.
Variable port : Z.

(** The map [getActiveMetricsURLs] builds. *)
Lemma getActiveMetricsURLs_map :
  getActiveMetricsURLs asyncHttpRequest host port
  = Returns (list_to_map
               (List.map (fun e => (endpoint e,
                                    probed asyncHttpRequest host port (endpoint e)))
                         (List.rev VALID_METRIC_ENDPOINT.values))).
Proof.
  unfold getActiveMetricsURLs. simpl.
  rewrite !isMetricsEndpoint_returns. reflexivity.
Qed.

Lemma getActiveMetricsURLs_lookup (endpoints : gmap jsstring bool) (path : jsstring) :
  getActiveMetricsURLs asyncHttpRequest host port = Returns endpoints ->
  endpoints !! path
  = if bool_decide (path ∈ List.map endpoint VALID_METRIC_ENDPOINT.values)
    then Some (probed asyncHttpRequest host port path)
    else None.
Proof.
  rewrite getActiveMetricsURLs_map. intros [= <-].
  repeat match goal with
         | |- <[?k := _]> _ !! ?p = _ =>
             destruct (decide (p = k)) as [->|?];
             [ rewrite lookup_insert_eq; reflexivity
             | rewrite lookup_insert_ne by congruence ]
         end.
  rewrite lookup_empty, bool_decide_eq_false_2; [reflexivity|].
  intros H. simpl in H.
  repeat (apply elem_of_cons in H as [H|H]; [congruence|]).
  now apply elem_of_nil in H.
Qed.

End ProbeAll.

Section ResolveProbed.

Variable asyncHttpRequest : request_options -> completion response.
Variable host : jsstring.
Variable port : Z.
Variables projectID projectLanguage : jsstring.

(** The whole of [getMetricsDashboardHostAndPath], in terms of what the
    probes find. *)
Lemma getMetricsDashboardHostAndPath_cases :
  getMetricsDashboardHostAndPath asyncHttpRequest host port projectID
    projectLanguage
  = Returns
      (if decide (projectLanguage = lit "java"
                  /\ probed asyncHttpRequest host port (endpoint VALID_METRIC_ENDPOINT.metrics) = true)
       then target projectID projectLanguage VALID_METRIC_ENDPOINT.metrics
       else if probed asyncHttpRequest host port (endpoint VALID_METRIC_ENDPOINT.appmetricsDash)
       then target projectID projectLanguage VALID_METRIC_ENDPOINT.appmetricsDash
       else if probed asyncHttpRequest host port (endpoint VALID_METRIC_ENDPOINT.javametricsDash)
       then target projectID projectLanguage VALID_METRIC_ENDPOINT.javametricsDash
       else if probed asyncHttpRequest host port (endpoint VALID_METRIC_ENDPOINT.swiftmetricsDash)
       then target projectID projectLanguage VALID_METRIC_ENDPOINT.swiftmetricsDash
       else no_target).
Proof.
  unfold getMetricsDashboardHostAndPath.
  destruct (getActiveMetricsURLs_returns asyncHttpRequest host port)
    as (endpoints & Heq & _).
  rewrite Heq. simpl. f_equal. rewrite resolveDashboard_cases.
  assert (Hcap : forall e, In e VALID_METRIC_ENDPOINT.values ->
                           capable endpoints e
                           <-> probed asyncHttpRequest host port (endpoint e) = true).
  { intros e He. unfold capable.
    rewrite (getActiveMetricsURLs_lookup _ _ _ _ _ Heq).
    rewrite bool_decide_eq_true_2
      by (apply list_elem_of_In, in_map, He).
    split; intros H; [injection H as H; exact H | now rewrite H]. }
  assert (Hdec : forall (e : metric_endpoint) (A : Type) (x y : A),
             In e VALID_METRIC_ENDPOINT.values ->
             (if decide (capable endpoints e) then x else y)
             = if probed asyncHttpRequest host port (endpoint e) then x else y).
  { intros e A x y He. destruct (decide _) as [Hc|Hc].
    - apply (Hcap e He) in Hc. now rewrite Hc.
    - destruct (probed asyncHttpRequest host port (endpoint e)) eqn:Hf; [|reflexivity].
      exfalso. now apply Hc, (Hcap e He). }
  rewrite !Hdec by (simpl; tauto).
  destruct (decide (projectLanguage = lit "java"
                    /\ capable endpoints VALID_METRIC_ENDPOINT.metrics))
    as [[Hj Hc]|Hn].
  - rewrite decide_True; [reflexivity|].
    split; [exact Hj|].
    apply (Hcap VALID_METRIC_ENDPOINT.metrics); [simpl; tauto | exact Hc].
  - rewrite decide_False; [reflexivity|].
    intros [Hj Hf]. apply Hn. split; [exact Hj|].
    apply (Hcap VALID_METRIC_ENDPOINT.metrics); [simpl; tauto | exact Hf].
Qed.

End ResolveProbed.

(** X10: [getActiveMetricsURLs] never throws, and the map it returns has
    the five endpoints of the catalog for keys and no other, each with
    what its own probe found. *)
Theorem X10_getActiveMetricsURLs_map
    (asyncHttpRequest : request_options -> completion response)
    (host : jsstring) (port : Z) :
  exists endpoints : gmap jsstring bool,
    getActiveMetricsURLs asyncHttpRequest host port = Returns endpoints
    /\ forall path,
         endpoints !! path
         = if bool_decide
                (path ∈ [lit "/metrics"; lit "/appmetrics-dash";
                         lit "/javametrics-dash"; lit "/swiftmetrics-dash";
                         lit "/actuator/prometheus"])
           then Some (probed asyncHttpRequest host port path)
           else None.
Proof.
  destruct (getActiveMetricsURLs_returns asyncHttpRequest host port)
    as (endpoints & Heq & _).
  exists endpoints. split; [exact Heq|]. intros path.
  exact (getActiveMetricsURLs_lookup _ _ _ _ _ Heq).
Qed.

(** X11: [getMetricsDashboardHostAndPath] never throws.  The dashboard it
    returns is hosted by the performance container exactly when the
    project is a java project whose [/metrics] probe succeeded, and has
    no hosting exactly when that is not so and none of the three legacy
    dashboards answered its probe. *)
Theorem X11_getMetricsDashboardHostAndPath_hosting
    (asyncHttpRequest : request_options -> completion response)
    (host : jsstring) (port : Z) (projectID projectLanguage : jsstring) :
  let found path := probed asyncHttpRequest host port path in
  exists d,
    getMetricsDashboardHostAndPath asyncHttpRequest host port projectID
      projectLanguage = Returns d
    /\ (dash_hosting d = Some performanceContainer <->
        projectLanguage = lit "java" /\ found (lit "/metrics") = true)
    /\ (dash_hosting d = None <->
        ~ (projectLanguage = lit "java" /\ found (lit "/metrics") = true)
        /\ found (lit "/appmetrics-dash") = false
        /\ found (lit "/javametrics-dash") = false
        /\ found (lit "/swiftmetrics-dash") = false).
Proof.
  intros found. eexists. split; [apply getMetricsDashboardHostAndPath_cases|].
  change (endpoint VALID_METRIC_ENDPOINT.metrics) with (lit "/metrics").
  change (endpoint VALID_METRIC_ENDPOINT.appmetricsDash)
    with (lit "/appmetrics-dash").
  change (endpoint VALID_METRIC_ENDPOINT.javametricsDash)
    with (lit "/javametrics-dash").
  change (endpoint VALID_METRIC_ENDPOINT.swiftmetricsDash)
    with (lit "/swiftmetrics-dash").
  fold (found (lit "/metrics")) (found (lit "/appmetrics-dash"))
       (found (lit "/javametrics-dash")) (found (lit "/swiftmetrics-dash")).
  destruct (decide _) as [Hj|Hj]; [simpl; intuition congruence|].
  destruct (found (lit "/appmetrics-dash")); [simpl; intuition congruence|].
  destruct (found (lit "/javametrics-dash")); [simpl; intuition congruence|].
  destruct (found (lit "/swiftmetrics-dash")); [simpl; intuition congruence|].
  simpl. intuition congruence.
Qed.

(** X12: for a project that is not a java project the answer is one of
    four values, whatever the project identifier: no dashboard, or one of
    the three legacy dashboards hosted by the project itself; the
    dashboard of the performance container is never returned for nodejs,
    although [getDashboardPath] has a path for it. *)
Theorem X12_non_java_legacy_only
    (asyncHttpRequest : request_options -> completion response)
    (host : jsstring) (port : Z) (projectID projectLanguage : jsstring) :
  projectLanguage <> lit "java" ->
  exists d,
    getMetricsDashboardHostAndPath asyncHttpRequest host port projectID
      projectLanguage = Returns d
    /\ In d [ no_target;
              {| dash_hosting := Some project;
                 dash_path := Some (lit "/appmetrics-dash/?theme=dark") |};
              {| dash_hosting := Some project;
                 dash_path := Some (lit "/javametrics-dash/?theme=dark") |};
              {| dash_hosting := Some project;
                 dash_path := Some (lit "/swiftmetrics-dash/?theme=dark") |} ].
Proof.
  intros Hlang. eexists. split; [apply getMetricsDashboardHostAndPath_cases|].
  destruct (decide _) as [[Hj _]|_]; [congruence|].
  destruct (probed _ _ _ _); [right; left; reflexivity|].
  destruct (probed _ _ _ _); [right; right; left; reflexivity|].
  destruct (probed _ _ _ _); [right; right; right; left; reflexivity|].
  left. reflexivity.
Qed.

Lemma X12_non_java_legacy_only_witness :
  let all_metrics (_ : request_options) : completion response :=
    Returns {| statusCode := 200; body := lit "up 1" |} in
  exists d,
    getMetricsDashboardHostAndPath all_metrics (lit "localhost") 3000
      (lit "p1") (lit "nodejs") = Returns d
    /\ In d [ no_target;
              {| dash_hosting := Some project;
                 dash_path := Some (lit "/appmetrics-dash/?theme=dark") |};
              {| dash_hosting := Some project;
                 dash_path := Some (lit "/javametrics-dash/?theme=dark") |};
              {| dash_hosting := Some project;
                 dash_path := Some (lit "/swiftmetrics-dash/?theme=dark") |} ].
Proof.
  intros all_metrics.
  assert (Hlang : lit "nodejs" <> lit "java") by discriminate.
  exact (X12_non_java_legacy_only all_metrics (lit "localhost") 3000
           (lit "p1") (lit "nodejs") Hlang).
Defined.

(** X13: [/actuator/prometheus] is probed, but what its probe finds never
    changes the answer: two networks on which the probes of the four
    endpoints of the priority list find the same get the same
    dashboard. *)
Theorem X13_actuator_probe_ignored
    (network1 network2 : request_options -> completion response)
    (host : jsstring) (port : Z) (projectID projectLanguage : jsstring) :
  (forall e, In e prioritisedReturnOrder ->
             probed network1 host port (endpoint e)
             = probed network2 host port (endpoint e)) ->
  getMetricsDashboardHostAndPath network1 host port projectID projectLanguage
  = getMetricsDashboardHostAndPath network2 host port projectID projectLanguage.
Proof.
  intros H. rewrite !getMetricsDashboardHostAndPath_cases.
  rewrite !H by (simpl; tauto). reflexivity.
Qed.

Lemma X13_actuator_probe_ignored_witness :
  let down (_ : request_options) : completion response :=
    Throws (lit "ECONNREFUSED") in
  let actuator_only (o : request_options) : completion response :=
    if str_eqb (opt_path o) (lit "/actuator/prometheus")
    then Returns {| statusCode := 200; body := lit "up 1" |}
    else Throws (lit "ECONNREFUSED") in
  getMetricsDashboardHostAndPath down (lit "localhost") 8080 (lit "p1") (lit "java")
  = getMetricsDashboardHostAndPath actuator_only (lit "localhost") 8080 (lit "p1")
      (lit "java").
Proof.
  intros down actuator_only.
  apply (X13_actuator_probe_ignored down actuator_only).
  intros e He. simpl in He.
  repeat (destruct He as [<-|He]; [reflexivity|]). destruct He.
Defined.

(** ** The build file and the status of a project *)

Import CheckerSpec.

Section BuildFile.

Variable number : Type.
Variable number_truthy : number -> bool.
Variable pathExists : jsstring -> bool.
Variable readFile : jsstring -> completion jsstring.
Variable path_join : jsstring -> jsstring -> jsstring.
Variable JSON_parse : jsstring -> completion (json number).

Lemma filesToCheck_lookup (projectLanguage : jsstring) :
  filesToCheck !! projectLanguage
  = if bool_decide (projectLanguage = lit "java") then Some (lit "pom.xml")
    else if bool_decide (projectLanguage = lit "nodejs")
    then Some (lit "package.json")
    else if bool_decide (projectLanguage = lit "javascript")
    then Some (lit "package.json")
    else if bool_decide (projectLanguage = lit "swift")
    then Some (lit "Package.swift")
    else None.
Proof.
  unfold filesToCheck. simpl.
  repeat match goal with
         | |- <[?k := _]> _ !! ?p = _ =>
             destruct (decide (p = k)) as [->|?];
             [ rewrite lookup_insert_eq; reflexivity
             | rewrite lookup_insert_ne by congruence;
               rewrite (bool_decide_eq_false_2 (p = k)) by assumption ]
         end.
  apply lookup_empty.
Qed.

Lemma filesToCheck_none (projectLanguage : jsstring) :
  filesToCheck !! projectLanguage = None <->
  projectLanguage ∉ supported_languages.
Proof.
  rewrite filesToCheck_lookup. unfold supported_languages.
  rewrite !not_elem_of_cons. split.
  - intros H. repeat split; try apply not_elem_of_nil;
      intros ->; vm_compute in H; discriminate.
  - intros (H1 & H2 & H3 & H4 & _).
    rewrite !bool_decide_eq_false_2 by assumption. reflexivity.
Qed.

Lemma filesToCheck_not_empty (projectLanguage fileToCheck : jsstring) :
  filesToCheck !! projectLanguage = Some fileToCheck ->
  str_eqb fileToCheck [] = false.
Proof.
  rewrite filesToCheck_lookup.
  repeat (destruct (bool_decide _); [intros [= <-]; reflexivity|]).
  discriminate.
Qed.

Lemma doesMetricsPackageExist_returns (pathOfFileToCheck projectLanguage : jsstring) :
  exists found,
    doesMetricsPackageExist number_truthy readFile JSON_parse pathOfFileToCheck projectLanguage
    = Returns found.
Proof.
  unfold doesMetricsPackageExist.
  destruct (bind _ _); eauto.
Qed.

End BuildFile.

(** X14: [isAppmetricsInFileSystem] answers [false], without looking at
    the file system, for a language that has no build file, unless the
    language is a name [Object.prototype] defines: then it throws the
    [TypeError] of [path.join].  For a language that has a build file it
    throws [BUILD_FILE_MISSING], naming the file, when the file is not in
    the project, and returns a value when it is.  It throws nothing
    else. *)
Theorem X14_isAppmetricsInFileSystem_build_file
    (pathExists : jsstring -> bool) (readFile : jsstring -> completion jsstring)
    (path_join : jsstring -> jsstring -> jsstring)
    {number : Type} (number_truthy : number -> bool)
    (JSON_parse : jsstring -> completion (json number))
    (projectPath projectLanguage : jsstring) :
  let result :=
    isAppmetricsInFileSystem number_truthy pathExists readFile path_join
      JSON_parse
      projectPath projectLanguage in
  let missing fileToCheck :=
    MetricsStatusError (lit "BUILD_FILE_MISSING")
      (lit "Cannot find project build-file (" ++ fileToCheck ++ lit ")") in
  let type_error := LibraryError (lit "TypeError [ERR_INVALID_ARG_TYPE]") in
  (projectLanguage ∉ supported_languages ->
   result = if inherited projectLanguage then Raised type_error
            else Value false)
  /\ (forall fileToCheck,
        filesToCheck !! projectLanguage = Some fileToCheck ->
        if pathExists (path_join projectPath fileToCheck)
        then exists found, result = Value found
        else result = Raised (missing fileToCheck))
  /\ (forall e,
        result = Raised e ->
        (exists fileToCheck,
            filesToCheck !! projectLanguage = Some fileToCheck
            /\ pathExists (path_join projectPath fileToCheck) = false
            /\ e = missing fileToCheck)
        \/ (projectLanguage ∈ Object_prototype_keys /\ e = type_error)).
Proof.
  intros result missing type_error. subst result.
  unfold isAppmetricsInFileSystem.
  split; [|split].
  - intros H. apply filesToCheck_none in H. now rewrite H.
  - intros fileToCheck H. rewrite H, (filesToCheck_not_empty _ _ H).
    destruct (pathExists _); [|reflexivity].
    destruct (doesMetricsPackageExist_returns number number_truthy readFile JSON_parse
                (path_join projectPath fileToCheck) projectLanguage)
      as [found ->].
    exists found. reflexivity.
  - intros e. destruct (filesToCheck !! projectLanguage) as [fileToCheck|] eqn:H.
    + rewrite (filesToCheck_not_empty _ _ H).
      destruct (pathExists _) eqn:Hexists.
      * destruct (doesMetricsPackageExist_returns number number_truthy readFile
                    JSON_parse (path_join projectPath fileToCheck) projectLanguage)
          as [found ->].
        discriminate.
      * intros [= <-]. left. exists fileToCheck. auto.
    + destruct (inherited projectLanguage) eqn:Hik; [|discriminate].
      intros [= <-]. right. split; [|reflexivity].
      now apply bool_decide_eq_true in Hik.
Qed.

Lemma X14_isAppmetricsInFileSystem_build_file_witness :
  let empty_project (_ : jsstring) := false in
  let unreadable (_ : jsstring) : completion jsstring := Throws (lit "ENOENT") in
  let path_join (a b : jsstring) := a ++ lit "/" ++ b in
  let no_parser (_ : jsstring) : completion (json Z) :=
    Throws (lit "SyntaxError") in
  isAppmetricsInFileSystem nonzero empty_project unreadable path_join no_parser
    (lit "/projects/p1") (lit "python") = Value false
  /\ isAppmetricsInFileSystem nonzero empty_project unreadable path_join no_parser
       (lit "/projects/p1") (lit "constructor")
     = Raised (LibraryError (lit "TypeError [ERR_INVALID_ARG_TYPE]"))
  /\ isAppmetricsInFileSystem nonzero empty_project unreadable path_join no_parser
       (lit "/projects/p1") (lit "java")
     = Raised (MetricsStatusError (lit "BUILD_FILE_MISSING")
                 (lit "Cannot find project build-file (pom.xml)")).
Proof.
  intros empty_project unreadable path_join no_parser.
  pose proof (X14_isAppmetricsInFileSystem_build_file empty_project unreadable
                path_join nonzero no_parser (lit "/projects/p1") (lit "python")) as Hpy.
  pose proof (X14_isAppmetricsInFileSystem_build_file empty_project unreadable
                path_join nonzero no_parser (lit "/projects/p1") (lit "constructor"))
    as Hctor.
  pose proof (X14_isAppmetricsInFileSystem_build_file empty_project unreadable
                path_join nonzero no_parser (lit "/projects/p1") (lit "java")) as Hjava.
  assert (Hunsupported : forall l : jsstring,
             bool_decide (l ∈ supported_languages) = false ->
             l ∉ supported_languages)
    by (intros l; apply bool_decide_eq_false).
  split; [|split].
  - apply (proj1 Hpy), Hunsupported. reflexivity.
  - apply (proj1 Hctor), Hunsupported. reflexivity.
  - exact (proj1 (proj2 Hjava) (lit "pom.xml") eq_refl).
Defined.

Section PackageCheck.

Variable number : Type.
Variable number_truthy : number -> bool.
Variable readFile : jsstring -> completion jsstring.
Variable JSON_parse : jsstring -> completion (json number).
Variables pathOfFileToCheck projectLanguage : jsstring.

Lemma doesMetricsPackageExist_text :
  (str_eqb projectLanguage (lit "nodejs")
   || str_eqb projectLanguage (lit "javascript")) = false ->
  forall contents, readFile pathOfFileToCheck = Returns contents ->
  doesMetricsPackageExist number_truthy readFile JSON_parse pathOfFileToCheck projectLanguage
  = Returns (if str_eqb projectLanguage (lit "java")
             then includes contents (lit "javametrics")
             else if str_eqb projectLanguage (lit "swift")
             then includes contents (lit "SwiftMetrics.git")
             else false).
Proof.
  intros Hnode contents Hread. unfold doesMetricsPackageExist.
  rewrite Hread. simpl. rewrite Hnode.
  destruct (str_eqb projectLanguage (lit "java")); [reflexivity|].
  destruct (str_eqb projectLanguage (lit "swift")); reflexivity.
Qed.

Lemma doesMetricsPackageExist_unreadable (err : jsstring) :
  readFile pathOfFileToCheck = Throws err ->
  doesMetricsPackageExist number_truthy readFile JSON_parse pathOfFileToCheck projectLanguage
  = Returns false.
Proof. intros H. unfold doesMetricsPackageExist. now rewrite H. Qed.

(** What the manifest branch makes of a parsed manifest. *)
Lemma manifest_branch (packageJSON : json number) :
  match
    bind (json_get packageJSON (lit "dependencies")) (fun dependencies =>
      match dependencies with
      | Some deps =>
          if json_truthy number_truthy dependencies then
            bind (json_get deps (lit "appmetrics-dash")) (fun dash =>
              Returns (json_truthy number_truthy dash))
          else Returns false
      | None => Returns false
      end)
  with
  | Returns found => found
  | Throws _ => false
  end = true <-> has_appmetrics_dependency number_truthy packageJSON.
Proof.
  unfold has_appmetrics_dependency.
  destruct packageJSON as [|b|f|s|items|props]; simpl;
    try (split; [discriminate | intros (? & ? & ? & ? & _); discriminate]).
  destruct (own_property props (lit "dependencies")) as [deps|] eqn:Hdeps;
    [|split; [discriminate | intros (? & ? & ? & [= <-] & ? & _); congruence]].
  destruct deps as [|b|f|s|items|dprops];
    try (split; [ simpl;
                  repeat match goal with
                         | |- context [if ?c then _ else _] => destruct c
                         end;
                  discriminate
                | intros (? & ? & ? & [= <-] & ? & _); congruence ]).
  simpl. destruct (own_property dprops (lit "appmetrics-dash")) as [dash|] eqn:Hdash.
  - split.
    + intros H. exists props, dprops, dash. auto.
    + intros (? & ? & ? & [= <-] & H1 & H2 & H3).
      rewrite Hdeps in H1. injection H1 as <-. rewrite Hdash in H2.
      injection H2 as <-. exact H3.
  - split; [discriminate|].
    intros (? & ? & ? & [= <-] & H1 & H2 & _).
    rewrite Hdeps in H1. injection H1 as <-. congruence.
Qed.

Lemma doesMetricsPackageExist_manifest :
  (str_eqb projectLanguage (lit "nodejs")
   || str_eqb projectLanguage (lit "javascript")) = true ->
  doesMetricsPackageExist number_truthy readFile JSON_parse pathOfFileToCheck projectLanguage
  = Returns true <->
  exists contents packageJSON,
    readFile pathOfFileToCheck = Returns contents
    /\ JSON_parse contents = Returns packageJSON
    /\ has_appmetrics_dependency number_truthy packageJSON.
Proof.
  intros Hnode. unfold doesMetricsPackageExist.
  destruct (readFile pathOfFileToCheck) as [contents|err] eqn:Hread; simpl.
  - rewrite Hnode.
    destruct (JSON_parse contents) as [packageJSON|err] eqn:Hparse; simpl.
    + pose proof (manifest_branch packageJSON) as Hb.
      destruct (bind _ _) as [found|err].
      * split.
        -- intros [= ->]. exists contents, packageJSON.
           repeat split; auto. now apply Hb.
        -- intros (? & ? & [= <-] & Hp & Hd). rewrite Hparse in Hp.
           injection Hp as <-. apply Hb in Hd. now rewrite Hd.
      * split; [discriminate|].
        intros (? & ? & [= <-] & Hp & Hd). rewrite Hparse in Hp.
        injection Hp as <-. apply Hb in Hd. discriminate.
    + split; [discriminate|].
      intros (? & ? & [= <-] & Hp & _). congruence.
  - split; [discriminate | intros (? & ? & ? & _); discriminate].
Qed.

End PackageCheck.

(** X15: [doesMetricsPackageExist] never throws: a file that cannot be
    read counts as a file without the package.  For a java project the
    package is there exactly when [javametrics] occurs in the build
    file, for a swift project when [SwiftMetrics.git] does, and a
    language without a build file never has it. *)
Theorem X15_doesMetricsPackageExist_text
    (readFile : jsstring -> completion jsstring)
    {number : Type} (number_truthy : number -> bool)
    (JSON_parse : jsstring -> completion (json number))
    (pathOfFileToCheck projectLanguage : jsstring) :
  let result :=
    doesMetricsPackageExist number_truthy readFile JSON_parse pathOfFileToCheck
      projectLanguage in
  (exists found, result = Returns found)
  /\ (forall err, readFile pathOfFileToCheck = Throws err ->
                  result = Returns false)
  /\ (projectLanguage = lit "java" ->
      (result = Returns true <->
       exists contents, readFile pathOfFileToCheck = Returns contents
                        /\ occurs_in (lit "javametrics") contents))
  /\ (projectLanguage = lit "swift" ->
      (result = Returns true <->
       exists contents, readFile pathOfFileToCheck = Returns contents
                        /\ occurs_in (lit "SwiftMetrics.git") contents))
  /\ (projectLanguage ∉ supported_languages -> result = Returns false).
Proof.
  intros result. subst result.
  split; [apply doesMetricsPackageExist_returns|].
  split; [apply doesMetricsPackageExist_unreadable|].
  assert (Htext : forall marker,
             (forall contents,
                 readFile pathOfFileToCheck = Returns contents ->
                 doesMetricsPackageExist number_truthy readFile JSON_parse pathOfFileToCheck
                   projectLanguage = Returns (includes contents marker)) ->
             doesMetricsPackageExist number_truthy readFile JSON_parse pathOfFileToCheck
               projectLanguage = Returns true <->
             exists contents, readFile pathOfFileToCheck = Returns contents
                              /\ occurs_in marker contents).
  { intros marker Hm. unfold occurs_in.
    destruct (readFile pathOfFileToCheck) as [contents|err] eqn:Hread.
    - rewrite (Hm contents eq_refl). split.
      + intros [= H]. exists contents. split; [reflexivity|].
        now apply includes_spec.
      + intros (? & [= <-] & H). apply includes_spec in H. now rewrite H.
    - rewrite (doesMetricsPackageExist_unreadable _ _ _ _ _ _ err Hread).
      split; [discriminate | intros (? & ? & _); discriminate]. }
  split; [|split].
  - intros ->. apply Htext. intros contents Hread.
    now rewrite (doesMetricsPackageExist_text number number_truthy readFile JSON_parse
                   pathOfFileToCheck (lit "java") eq_refl contents Hread).
  - intros ->. apply Htext. intros contents Hread.
    now rewrite (doesMetricsPackageExist_text number number_truthy readFile JSON_parse
                   pathOfFileToCheck (lit "swift") eq_refl contents Hread).
  - intros Hlang. unfold supported_languages in Hlang.
    rewrite !not_elem_of_cons in Hlang.
    destruct Hlang as (Hj & Hn & Hjs & Hs & _).
    destruct (readFile pathOfFileToCheck) as [contents|err] eqn:Hread;
      [|now apply (doesMetricsPackageExist_unreadable _ _ _ _ _ _ err)].
    assert (Hnode : (str_eqb projectLanguage (lit "nodejs")
                     || str_eqb projectLanguage (lit "javascript")) = false)
      by (unfold str_eqb; now rewrite !bool_decide_eq_false_2 by assumption).
    rewrite (doesMetricsPackageExist_text number number_truthy readFile JSON_parse
               pathOfFileToCheck projectLanguage Hnode contents Hread).
    unfold str_eqb. now rewrite !bool_decide_eq_false_2 by assumption.
Qed.

Lemma X15_doesMetricsPackageExist_text_witness :
  let pom (_ : jsstring) : completion jsstring :=
    Returns (lit "<artifactId>javametrics-dash</artifactId>") in
  let no_parser (_ : jsstring) : completion (json Z) :=
    Throws (lit "SyntaxError") in
  doesMetricsPackageExist nonzero pom no_parser (lit "/p1/pom.xml") (lit "java")
  = Returns true.
Proof.
  intros pom no_parser.
  apply (proj1 (proj2 (proj2
           (X15_doesMetricsPackageExist_text pom nonzero no_parser (lit "/p1/pom.xml")
              (lit "java")))) eq_refl).
  exists (lit "<artifactId>javametrics-dash</artifactId>").
  split; [reflexivity|].
  exists (lit "<artifactId>"), (lit "-dash</artifactId>"). reflexivity.
Defined.

(** X16: for a nodejs or javascript project the package is there exactly
    when the build file can be read and parsed and gives an object whose
    [dependencies] is an object in which [appmetrics-dash] counts as
    true; a manifest that does not parse, that is [null] or that has no
    such entry gives [false], and nothing is thrown. *)
Theorem X16_doesMetricsPackageExist_manifest
    (readFile : jsstring -> completion jsstring)
    {number : Type} (number_truthy : number -> bool)
    (JSON_parse : jsstring -> completion (json number))
    (pathOfFileToCheck projectLanguage : jsstring) :
  projectLanguage = lit "nodejs" \/ projectLanguage = lit "javascript" ->
  doesMetricsPackageExist number_truthy readFile JSON_parse pathOfFileToCheck projectLanguage
  = Returns true <->
  exists contents packageJSON,
    readFile pathOfFileToCheck = Returns contents
    /\ JSON_parse contents = Returns packageJSON
    /\ has_appmetrics_dependency number_truthy packageJSON.
Proof.
  intros Hlang. apply doesMetricsPackageExist_manifest.
  destruct Hlang as [-> | ->]; reflexivity.
Qed.

Lemma X16_doesMetricsPackageExist_manifest_witness :
  let manifest (_ : jsstring) : completion jsstring := Returns (lit "{...}") in
  let parsed (_ : jsstring) : completion (json Z) :=
    Returns (JObject
               [ (lit "name", JString (lit "app"));
                 (lit "dependencies",
                  JObject [ (lit "appmetrics-dash", JString (lit "^5.3.0")) ]) ]) in
  doesMetricsPackageExist nonzero manifest parsed (lit "/p1/package.json") (lit "nodejs")
  = Returns true.
Proof.
  intros manifest parsed.
  apply (X16_doesMetricsPackageExist_manifest manifest nonzero parsed
           (lit "/p1/package.json") (lit "nodejs") (or_introl eq_refl)).
  eexists _, _. split; [reflexivity|]. split; [reflexivity|].
  eexists _, _, _. repeat split; reflexivity.
Defined.

(** X17: [hasMicroprofileMetrics] answers [false] for a file that does not
    exist, without reading it; for a file that exists it answers whether
    the microprofile artifact occurs in it, and a failure to read it is
    thrown on to the caller. *)
Theorem X17_hasMicroprofileMetrics
    (pathExists : jsstring -> bool) (readFile : jsstring -> completion jsstring)
    (filePath : jsstring) :
  let result := hasMicroprofileMetrics pathExists readFile filePath in
  (pathExists filePath = false -> result = Returns false)
  /\ (pathExists filePath = true ->
      forall err, readFile filePath = Throws err -> result = Throws err)
  /\ (result = Returns true <->
      pathExists filePath = true
      /\ exists contents,
           readFile filePath = Returns contents
           /\ occurs_in (lit "<artifactId>microprofile</artifactId>") contents).
Proof.
  intros result. subst result. unfold hasMicroprofileMetrics, occurs_in.
  destruct (pathExists filePath); cbn [negb].
  - split; [discriminate|]. split; [intros _ err ->; reflexivity|].
    destruct (readFile filePath) as [contents|err]; cbn [bind].
    + split.
      * intros [= H]. split; [reflexivity|]. exists contents.
        split; [reflexivity|]. exact (proj1 (includes_spec _ _) H).
      * intros (_ & ? & [= <-] & H).
        now rewrite (proj2 (includes_spec _ _) H).
    + split; [discriminate | intros (_ & ? & ? & _); discriminate].
  - split; [reflexivity|]. split; [discriminate|].
    split; [discriminate | intros [? _]; discriminate].
Qed.

Lemma X17_hasMicroprofileMetrics_witness :
  hasMicroprofileMetrics (fun _ => false) (fun _ => Throws (lit "ENOENT"))
    (lit "/p1/pom.xml") = Returns false.
Proof.
  apply (X17_hasMicroprofileMetrics (fun _ => false)
           (fun _ => Throws (lit "ENOENT")) (lit "/p1/pom.xml")).
  reflexivity.
Defined.

Section ProjectStatus.

Variable number : Type.
Variable number_truthy : number -> bool.
Variable pathExists : jsstring -> bool.
Variable readFile : jsstring -> completion jsstring.
Variable path_join : jsstring -> jsstring -> jsstring.
Variable JSON_parse : jsstring -> completion (json number).
Variable asyncHttpRequest : request_options -> completion response.
Variable p : project_info.

(** [getMetricStatusForProject], once the build file has been looked
    into. *)
Lemma getMetricStatusForProject_cases :
  getMetricStatusForProject number_truthy pathExists readFile path_join
    JSON_parse
    asyncHttpRequest p
  = match isAppmetricsInFileSystem number_truthy pathExists readFile path_join
      JSON_parse
            (project_path p) (project_language p) with
    | Raised e => Raised e
    | Value appmetricsPackage =>
        let found path :=
          probed asyncHttpRequest (project_host p) (project_internalPort p) path in
        let legacy :=
          found (lit "/appmetrics-dash") || found (lit "/javametrics-dash")
          || found (lit "/swiftmetrics-dash") in
        Value {| metricsAvailable := Some (found (lit "/metrics") || legacy);
                 running := str_eqb (project_appStatus p) (lit "started");
                 metricsEndpoint := Some (found (lit "/metrics"));
                 appmetricsEndpoint := Some legacy;
                 microprofilePackage := true;
                 appmetricsPackage := appmetricsPackage;
                 performanceEnable := true |}
    end.
Proof.
  unfold getMetricStatusForProject.
  destruct (isAppmetricsInFileSystem _ _ _ _ _ _) as [appmetricsPackage|e];
    [|reflexivity].
  cbn [obind].
  destruct (getActiveMetricsURLs_returns asyncHttpRequest (project_host p)
              (project_internalPort p)) as (endpoints & Heq & _).
  rewrite Heq. cbn [lift obind].
  rewrite !(getActiveMetricsURLs_lookup _ _ _ _ _ Heq).
  rewrite !bool_decide_eq_true_2
    by (vm_compute; repeat first [apply list_elem_of_here | apply list_elem_of_further]).
  cbv zeta.
  change (endpoint VALID_METRIC_ENDPOINT.metrics) with (lit "/metrics").
  change (endpoint VALID_METRIC_ENDPOINT.appmetricsDash)
    with (lit "/appmetrics-dash").
  change (endpoint VALID_METRIC_ENDPOINT.javametricsDash)
    with (lit "/javametrics-dash").
  change (endpoint VALID_METRIC_ENDPOINT.swiftmetricsDash)
    with (lit "/swiftmetrics-dash").
  destruct (probed _ _ _ (lit "/metrics")),
           (probed _ _ _ (lit "/appmetrics-dash")),
           (probed _ _ _ (lit "/javametrics-dash")),
           (probed _ _ _ (lit "/swiftmetrics-dash")); reflexivity.
Qed.

End ProjectStatus.

(** X18: [getMetricStatusForProject] throws exactly what the look into
    the build file throws, before any endpoint is probed.  Otherwise it
    returns a status in which [metricsEndpoint] is what the probe of
    [/metrics] found, [appmetricsEndpoint] is whether one of the three
    legacy dashboards answered, [metricsAvailable] is whether any of the
    four did ([/actuator/prometheus] does not count), [running] is
    whether the application status is [started], and
    [microprofilePackage] and [performanceEnable] are [true]. *)
Theorem X18_getMetricStatusForProject
    (pathExists : jsstring -> bool) (readFile : jsstring -> completion jsstring)
    (path_join : jsstring -> jsstring -> jsstring)
    {number : Type} (number_truthy : number -> bool)
    (JSON_parse : jsstring -> completion (json number))
    (asyncHttpRequest : request_options -> completion response)
    (p : project_info) :
  let result :=
    getMetricStatusForProject number_truthy pathExists readFile path_join
    JSON_parse
      asyncHttpRequest p in
  let build_file :=
    isAppmetricsInFileSystem number_truthy pathExists readFile path_join
      JSON_parse
      (project_path p) (project_language p) in
  let found path :=
    probed asyncHttpRequest (project_host p) (project_internalPort p) path in
  (forall e, result = Raised e <-> build_file = Raised e)
  /\ (forall status,
        result = Value status ->
        build_file = Value (appmetricsPackage status)
        /\ metricsEndpoint status = Some (found (lit "/metrics"))
        /\ appmetricsEndpoint status
           = Some (found (lit "/appmetrics-dash") || found (lit "/javametrics-dash")
                   || found (lit "/swiftmetrics-dash"))
        /\ metricsAvailable status
           = Some (found (lit "/metrics")
                   || (found (lit "/appmetrics-dash")
                       || found (lit "/javametrics-dash")
                       || found (lit "/swiftmetrics-dash")))
        /\ (running status = true <-> project_appStatus p = lit "started")
        /\ microprofilePackage status = true
        /\ performanceEnable status = true).
Proof.
  intros result build_file found. subst result build_file.
  rewrite getMetricStatusForProject_cases.
  destruct (isAppmetricsInFileSystem _ _ _ _ _ _) as [appmetricsPackage|e0].
  - split; [intros e; split; discriminate|].
    intros status [= <-]. cbn.
    repeat split; try reflexivity.
    + intros H. unfold str_eqb in H. now apply bool_decide_eq_true in H.
    + intros H. unfold str_eqb. now apply bool_decide_eq_true.
  - split; [intros e; split; intros [= ->]; reflexivity | discriminate].
Qed.

Lemma X18_getMetricStatusForProject_witness :
  let no_files (_ : jsstring) := false in
  let unreadable (_ : jsstring) : completion jsstring := Throws (lit "ENOENT") in
  let path_join (a b : jsstring) := a ++ lit "/" ++ b in
  let no_parser (_ : jsstring) : completion (json Z) :=
    Throws (lit "SyntaxError") in
  let metrics_up (_ : request_options) : completion response :=
    Returns {| statusCode := 200; body := lit "up 1" |} in
  let p := {| project_language := lit "go"; project_host := lit "localhost";
              project_internalPort := 8080; project_appStatus := lit "started";
              project_path := lit "/projects/p1" |} in
  exists status,
    getMetricStatusForProject nonzero no_files unreadable path_join no_parser
      metrics_up p = Value status
    /\ metricsAvailable status = Some true.
Proof.
  intros no_files unreadable path_join no_parser metrics_up p.
  destruct (getMetricStatusForProject nonzero no_files unreadable path_join no_parser
              metrics_up p) as [status|e] eqn:H;
    [|vm_compute in H; discriminate].
  exists status. split; [reflexivity|].
  exact (proj1 (proj2 (proj2 (proj2
           (proj2 (X18_getMetricStatusForProject no_files unreadable path_join
                     nonzero no_parser metrics_up p) status H))))).
Defined.

(** X19: on one network, a dashboard resolved for a project means that
    its status says metrics are available; the other way round fails in
    one case only: the project is not a java project and [/metrics] is
    the only endpoint of the four that answered, so that the status says
    available and no dashboard is resolved. *)
Theorem X19_dashboard_implies_metricsAvailable
    (pathExists : jsstring -> bool) (readFile : jsstring -> completion jsstring)
    (path_join : jsstring -> jsstring -> jsstring)
    {number : Type} (number_truthy : number -> bool)
    (JSON_parse : jsstring -> completion (json number))
    (asyncHttpRequest : request_options -> completion response)
    (p : project_info) (projectID : jsstring)
    (status : metric_status) (d : dashboard) :
  getMetricStatusForProject number_truthy pathExists readFile path_join
    JSON_parse
    asyncHttpRequest p = Value status ->
  getMetricsDashboardHostAndPath asyncHttpRequest (project_host p)
    (project_internalPort p) projectID (project_language p) = Returns d ->
  let found path :=
    probed asyncHttpRequest (project_host p) (project_internalPort p) path in
  (dash_hosting d <> None -> metricsAvailable status = Some true)
  /\ (metricsAvailable status = Some true /\ dash_hosting d = None <->
      project_language p <> lit "java"
      /\ found (lit "/metrics") = true
      /\ found (lit "/appmetrics-dash") = false
      /\ found (lit "/javametrics-dash") = false
      /\ found (lit "/swiftmetrics-dash") = false).
Proof.
  intros Hstatus Hdash found.
  rewrite getMetricStatusForProject_cases in Hstatus.
  destruct (isAppmetricsInFileSystem _ _ _ _ _ _) as [pkg|e]; [|discriminate].
  injection Hstatus as <-. cbn [metricsAvailable].
  rewrite getMetricsDashboardHostAndPath_cases in Hdash.
  injection Hdash as <-.
  change (endpoint VALID_METRIC_ENDPOINT.metrics) with (lit "/metrics").
  change (endpoint VALID_METRIC_ENDPOINT.appmetricsDash)
    with (lit "/appmetrics-dash").
  change (endpoint VALID_METRIC_ENDPOINT.javametricsDash)
    with (lit "/javametrics-dash").
  change (endpoint VALID_METRIC_ENDPOINT.swiftmetricsDash)
    with (lit "/swiftmetrics-dash").
  fold (found (lit "/metrics")) (found (lit "/appmetrics-dash"))
       (found (lit "/javametrics-dash")) (found (lit "/swiftmetrics-dash")).
  destruct (decide _) as [[Hj Hm]|Hn].
  - rewrite Hm. cbn. intuition congruence.
  - destruct (found (lit "/metrics")) eqn:Hm,
             (found (lit "/appmetrics-dash")),
             (found (lit "/javametrics-dash")),
             (found (lit "/swiftmetrics-dash")); cbn; intuition congruence.
Qed.

Lemma X19_dashboard_implies_metricsAvailable_witness :
  let pom_there (_ : jsstring) := true in
  let pom (_ : jsstring) : completion jsstring :=
    Returns (lit "<artifactId>javametrics-dash</artifactId>") in
  let path_join (a b : jsstring) := a ++ lit "/" ++ b in
  let no_parser (_ : jsstring) : completion (json Z) :=
    Throws (lit "SyntaxError") in
  let metrics_up (_ : request_options) : completion response :=
    Returns {| statusCode := 200; body := lit "up 1" |} in
  let p := {| project_language := lit "java"; project_host := lit "localhost";
              project_internalPort := 9080; project_appStatus := lit "started";
              project_path := lit "/projects/p1" |} in
  exists status,
    getMetricStatusForProject nonzero pom_there pom path_join no_parser metrics_up p
    = Value status
    /\ metricsAvailable status = Some true.
Proof.
  intros pom_there pom path_join no_parser metrics_up p.
  destruct (getMetricStatusForProject nonzero pom_there pom path_join no_parser
              metrics_up p) as [status|e] eqn:Hstatus;
    [|vm_compute in Hstatus; discriminate].
  exists status. split; [reflexivity|].
  apply (proj1 (X19_dashboard_implies_metricsAvailable pom_there pom path_join
                  nonzero no_parser metrics_up p (lit "p1") status
                  (target (lit "p1") (lit "java") VALID_METRIC_ENDPOINT.metrics)
                  Hstatus eq_refl)).
  discriminate.
Defined.

(** ** More on the orchestrator *)

Import LifecycleSpec.

Section Lifecycle.

Lemma on_exit_event (st : server) (r : nat) (c : run_state)
    (code : option Z) (signal : exit_signal) :
  runs st !! r = Some c ->
  exists e,
    on_exit r code signal st
    = io_emit r e
        (set_loadProcess (projectID (options c)) Null (mark_ended r c st))
    /\ is_terminal e = true
    /\ event_project e = projectID (options c).
Proof.
  intros Hr. unfold on_exit. rewrite Hr.
  destruct (is_sigkill signal); [eauto|].
  destruct (code_not_zero code); eauto.
Qed.

Lemma lifecycle_same (c c' : run_state) (events : list event) :
  options c' = options c -> ended c' = ended c ->
  lifecycle c events -> lifecycle c' events.
Proof. unfold lifecycle. now intros -> ->. Qed.

Lemma lifecycles_set_run (st : server) (r : nat) (c c' : run_state) :
  runs st !! r = Some c ->
  options c' = options c -> ended c' = ended c ->
  lifecycles st -> lifecycles (set_run r c' st).
Proof.
  intros Hr Ho He Hl r0 c0 Hr0. simpl in Hr0.
  rewrite (events_of_run_same r0 st (set_run r c' st)) by reflexivity.
  destruct (decide (r = r0)) as [<-|Hne].
  - rewrite list_lookup_insert_eq in Hr0 by (eapply lookup_lt_Some; eauto).
    injection Hr0 as <-. apply (lifecycle_same c); auto.
  - rewrite list_lookup_insert_ne in Hr0 by exact Hne. now apply Hl.
Qed.

Lemma lifecycles_end (st : server) (r : nat) (c : run_state) (e : event) :
  runs st !! r = Some c -> ended c = false ->
  is_terminal e = true -> event_project e = projectID (options c) ->
  lifecycles st ->
  lifecycles (io_emit r e
                (set_loadProcess (projectID (options c)) Null
                   (mark_ended r c st))).
Proof.
  intros Hr He Hte Hk Hl r0 c0 Hr0. simpl in Hr0.
  rewrite events_of_run_emit.
  rewrite (events_of_run_same r0 st (set_loadProcess _ _ (mark_ended r c st)))
    by reflexivity.
  destruct (decide (r = r0)) as [<-|Hne].
  - rewrite list_lookup_insert_eq in Hr0 by (eapply lookup_lt_Some; eauto).
    injection Hr0 as <-. rewrite Nat.eqb_refl.
    pose proof (Hl r c Hr) as Hc. unfold lifecycle in Hc |- *.
    rewrite He in Hc. simpl. rewrite Hc. exists e. auto.
  - rewrite list_lookup_insert_ne in Hr0 by exact Hne.
    apply Nat.eqb_neq in Hne. rewrite Hne, app_nil_r. now apply Hl.
Qed.

Lemma lifecycles_runLoad (st : server) (b : req_body) :
  invariant st -> lifecycles st -> lifecycles (runLoad b st).
Proof.
  intros [_ _ _ Hfresh] Hl r0 c0 Hr0. unfold runLoad in *.
  rewrite events_of_run_emit.
  rewrite (events_of_run_same r0 (io_emit (List.length (runs st))
                                    (starting (projectID b)) st)
             (spawn b _)) by reflexivity.
  rewrite events_of_run_emit.
  simpl in Hr0. apply lookup_snoc_Some in Hr0 as [[Hlt Hr0] | [-> <-]].
  - destruct (Nat.eqb_spec (List.length (runs st)) r0) as [E|_]; [lia|].
    rewrite !app_nil_r. now apply Hl.
  - rewrite Nat.eqb_refl, (Hfresh (List.length (runs st)))
      by (apply lookup_ge_None_2; lia).
    reflexivity.
Qed.

Lemma lifecycles_step (st : server) (i : input) :
  admissible st i = true -> invariant st -> lifecycles st ->
  lifecycles (step st i).
Proof.
  intros Hadm Hinv Hl. destruct i as [b|b|r d|r d|r code signal|r]; simpl in *.
  - unfold post_runload.
    destruct (truthy_at (loadProcess st) (projectID b)); simpl; [exact Hl|].
    destruct (url_missing b); simpl; [exact Hl|].
    now apply lifecycles_runLoad.
  - unfold post_cancelLoad.
    destruct (truthy_at (loadProcess st) (projectID b)); simpl; [|exact Hl].
    destruct (loadProcess st !! projectID b) as [[|r]|]; simpl; try exact Hl.
    destruct (runs st !! r) as [c|] eqn:Hr; [|exact Hl].
    now apply (lifecycles_set_run st r c).
  - unfold on_stdout. destruct (runs st !! r) as [c|] eqn:Hr; [|exact Hl].
    now apply (lifecycles_set_run st r c).
  - unfold on_stderr. destruct (runs st !! r) as [c|] eqn:Hr; [|exact Hl].
    now apply (lifecycles_set_run st r c).
  - unfold live in Hadm. destruct (runs st !! r) as [c|] eqn:Hr; [|discriminate].
    apply negb_true_iff in Hadm.
    destruct (on_exit_event st r c code signal Hr) as (e & -> & He & Hk).
    now apply lifecycles_end.
  - unfold live in Hadm. unfold on_error.
    destruct (runs st !! r) as [c|] eqn:Hr; [|discriminate].
    apply negb_true_iff in Hadm. now apply lifecycles_end.
Qed.

Lemma lifecycles_trace (tr : list input) :
  admissible_trace initial tr = true -> lifecycles (run_trace initial tr).
Proof.
  apply (trace_ind (fun _ st => lifecycles st)).
  - intros r c H. discriminate.
  - intros tr' i Htr Hi Hl.
    apply lifecycles_step; [exact Hi | now apply invariant_trace | exact Hl].
Qed.

End Lifecycle.

(** X20: whatever requests and reports the server has been through, the
    events emitted for a run are, in this order, [starting], [started]
    and, if and only if the run has ended, one terminal event, each about
    the project of the run; nothing is emitted for a run that has not
    been started. *)
Theorem X20_run_lifecycle (tr : list input) (r : nat) :
  admissible_trace initial tr = true ->
  let st := run_trace initial tr in
  match runs st !! r with
  | Some c => lifecycle c (events_of_run r st)
  | None => events_of_run r st = []
  end.
Proof.
  intros Hadm st. destruct (runs st !! r) as [c|] eqn:Hr.
  - now apply (lifecycles_trace tr Hadm).
  - now apply (inv_fresh st (invariant_trace tr Hadm)).
Qed.

Lemma X20_run_lifecycle_witness :
  let b := {| projectID := lit "p1"; url := Some (lit "http://x");
              payload := [] |} in
  let tr := [runload b; cancelLoad b;
             exit 0 None (signal_name (lit "SIGKILL"))] in
  exists e,
    events_of_run 0 (run_trace initial tr)
    = [starting (lit "p1"); started (lit "p1"); e]
    /\ is_terminal e = true /\ event_project e = lit "p1".
Proof.
  intros b tr. exact (X20_run_lifecycle tr 0 eq_refl).
Defined.

(** X21: a cancellation emits no event and leaves [loadProcess] as it is.
    It is answered 200 exactly when the project has a live run, and then
    SIGKILL goes to the child of that run; it is answered 500 exactly when
    the project is a name [Object.prototype] defines, the inherited
    member having no [kill]; otherwise it is answered 409.  No other run
    is touched. *)
Theorem X21_cancelLoad (tr : list input) (b : req_body) :
  admissible_trace initial tr = true ->
  let st := run_trace initial tr in
  let st' := fst (post_cancelLoad b st) in
  let reply := snd (post_cancelLoad b st) in
  loadProcess st' = loadProcess st
  /\ emitted st' = emitted st
  /\ (reply = sendStatus 200
      \/ reply = status_send_err 500 (lit "TypeError")
      \/ reply = status_send 409 (lit "No run in progress"))
  /\ (reply = sendStatus 200 <->
      exists r c, runs st !! r = Some c /\ ended c = false
                  /\ projectID (options c) = projectID b)
  /\ (reply = status_send_err 500 (lit "TypeError") <->
      projectID b ∈ Object_prototype_keys)
  /\ (forall r c,
        runs st !! r = Some c ->
        runs st' !! r
        = Some (if bool_decide (projectID (options c) = projectID b)
                   && negb (ended c)
                then killed c else c)).
Proof.
  intros Hadm st st' reply.
  pose proof (invariant_trace tr Hadm) as [H1 H2 _ _]. fold st in H1, H2.
  pose proof (plain_keys_trace tr) as [Hown _]. fold st in Hown.
  assert (Hin : inherited (projectID b) = true
                <-> projectID b ∈ Object_prototype_keys)
    by apply bool_decide_eq_true.
  assert (Hidle : (forall r, loadProcess st !! projectID b
                             <> Some (ChildProcess r)) ->
            (~ exists r c, runs st !! r = Some c /\ ended c = false
                           /\ projectID (options c) = projectID b)
            /\ (forall r c, runs st !! r = Some c ->
                  runs st !! r
                  = Some (if bool_decide (projectID (options c) = projectID b)
                             && negb (ended c)
                          then killed c else c))).
  { intros Hno. split.
    - intros (r & c & Hr & He & Hk). apply (Hno r).
      rewrite <- Hk. now apply H1.
    - intros r c Hr. rewrite Hr. f_equal.
      destruct (decide (projectID (options c) = projectID b)) as [Hk|Hk];
        [|rewrite (bool_decide_eq_false_2 _ Hk); reflexivity].
      destruct (ended c) eqn:He; [rewrite andb_false_r; reflexivity|].
      exfalso. apply (Hno r). rewrite <- Hk. now apply H1. }
  subst st' reply. unfold post_cancelLoad.
  destruct (loadProcess st !! projectID b) as [[|r]|] eqn:Hlp.
  - rewrite (truthy_at_own _ _ _ Hlp). simpl.
    destruct Hidle as [Hnolive Hruns]; [intros r; discriminate|].
    split; [reflexivity|]. split; [reflexivity|]. split; [auto|].
    split; [split; [discriminate | intros H; now destruct Hnolive]|].
    split; [|exact Hruns].
    split; [discriminate|]. intros Hk. apply Hin in Hk.
    rewrite (Hown _ Hk) in Hlp. discriminate.
  - rewrite (truthy_at_own _ _ _ Hlp). simpl.
    destruct (H2 _ _ Hlp) as (c & Hr & He & Hk). rewrite Hr. simpl.
    split; [reflexivity|]. split; [reflexivity|]. split; [auto|].
    split; [split; [intros _; eauto | reflexivity]|].
    split.
    + split; [discriminate|]. intros Hk'. apply Hin in Hk'.
      rewrite (Hown _ Hk') in Hlp. discriminate.
    + intros r0 c0 Hr0. destruct (decide (r = r0)) as [<-|Hne].
      * rewrite list_lookup_insert_eq by (eapply lookup_lt_Some; eauto).
        rewrite Hr in Hr0. injection Hr0 as <-.
        unfold killed. rewrite (bool_decide_eq_true_2 _ Hk), He. reflexivity.
      * rewrite list_lookup_insert_ne by exact Hne. rewrite Hr0. f_equal.
        destruct (decide (projectID (options c0) = projectID b)) as [Hk0|Hk0];
          [|rewrite (bool_decide_eq_false_2 _ Hk0); reflexivity].
        destruct (ended c0) eqn:He0; [rewrite andb_false_r; reflexivity|].
        exfalso. apply Hne.
        pose proof (H1 r0 c0 Hr0 He0) as Hreg. rewrite Hk0, Hlp in Hreg.
        now injection Hreg.
  - rewrite (truthy_at_none _ _ Hlp).
    destruct Hidle as [Hnolive Hruns]; [intros r; discriminate|].
    destruct (inherited (projectID b)) eqn:Hik; simpl.
    + split; [reflexivity|]. split; [reflexivity|]. split; [auto|].
      split; [split; [discriminate | intros H; now destruct Hnolive]|].
      split; [|exact Hruns].
      split; [intros _; now apply Hin | reflexivity].
    + split; [reflexivity|]. split; [reflexivity|]. split; [auto|].
      split; [split; [discriminate | intros H; now destruct Hnolive]|].
      split; [|exact Hruns].
      split; [discriminate|]. intros Hk. apply Hin in Hk. congruence.
Qed.

Lemma X21_cancelLoad_witness :
  let b := {| projectID := lit "p1"; url := Some (lit "http://x");
              payload := [] |} in
  let b' := {| projectID := lit "constructor"; url := None; payload := [] |} in
  let st := run_trace initial [runload b] in
  emitted (fst (post_cancelLoad b st)) = emitted st
  /\ snd (post_cancelLoad b st) = sendStatus 200
  /\ snd (post_cancelLoad b' st) = status_send_err 500 (lit "TypeError").
Proof.
  intros b b' st.
  pose proof (X21_cancelLoad [runload b] b eq_refl) as (_ & Hem & _ & Hreply & _).
  pose proof (X21_cancelLoad [runload b] b' eq_refl) as (_ & _ & _ & _ & Hthrown & _).
  split; [exact Hem|]. split.
  - apply Hreply. eexists 0, _. repeat split; reflexivity.
  - apply Hthrown.
    apply (bool_decide_eq_true_1 (projectID b' ∈ Object_prototype_keys)).
    reflexivity.
Defined.

(** X22: when the child of a live run reports its end, by [exit] or by
    [error], the entry of its project is cleared in the same step, so
    that a start for the project that comes next is accepted and spawns a
    new worker, which becomes the run of the project. *)
Theorem X22_project_free_after_end
    (tr : list input) (r : nat) (c : run_state) (i : input) (b : req_body) :
  admissible_trace initial tr = true ->
  runs (run_trace initial tr) !! r = Some c ->
  ended c = false ->
  ends_run r i ->
  projectID b = projectID (options c) ->
  url_missing b = false ->
  let st := run_trace initial tr in
  let st' := step st i in
  admissible_trace initial (tr ++ [i]) = true
  /\ loadProcess st' !! projectID b = Some Null
  /\ post_runload b st' = (runLoad b st', sendStatus 202)
  /\ loadProcess (runLoad b st') !! projectID b
     = Some (ChildProcess (List.length (runs st)))
  /\ List.length (runs (runLoad b st')) = S (List.length (runs st)).
Proof.
  intros Hadm Hr He Hi Hb Hurl st st'. fold st in Hr.
  assert (Hlive : admissible st i = true).
  { destruct Hi as [(code & signal & ->) | ->]; simpl; unfold live;
      now rewrite Hr, He. }
  assert (Hst' : exists e,
             st' = io_emit r e
                     (set_loadProcess (projectID (options c)) Null
                        (mark_ended r c st))).
  { subst st'. destruct Hi as [(code & signal & ->) | ->]; simpl.
    - destruct (on_exit_event st r c code signal Hr) as (e & -> & _). eauto.
    - unfold on_error. rewrite Hr. eauto. }
  destruct Hst' as (e & Hst').
  assert (Hnull : loadProcess st' !! projectID b = Some Null).
  { rewrite Hst', Hb. simpl. apply lookup_insert_eq. }
  assert (Hlen : List.length (runs st') = List.length (runs st)).
  { rewrite Hst'. simpl. apply length_insert. }
  split; [rewrite admissible_trace_snoc, Hadm; exact Hlive|].
  split; [exact Hnull|].
  split; [apply post_runload_accepted;
            [now rewrite (truthy_at_own _ _ _ Hnull) | exact Hurl]|].
  split.
  - unfold runLoad. simpl. rewrite lookup_insert_eq. now rewrite Hlen.
  - unfold runLoad. simpl. rewrite length_app, Hlen. simpl. lia.
Qed.

Lemma X22_project_free_after_end_witness :
  let b := {| projectID := lit "p1"; url := Some (lit "http://x");
              payload := [] |} in
  let st' := run_trace initial [runload b; exit 0 (Some 0%Z) signal_null] in
  post_runload b st' = (runLoad b st', sendStatus 202).
Proof.
  intros b st'.
  assert (Hends : ends_run 0 (exit 0 (Some 0%Z) signal_null))
    by (left; eauto).
  exact (proj1 (proj2 (proj2
           (X22_project_free_after_end [runload b] 0
              {| options := b; output := []; errOutput := []; kills := [];
                 ended := false |}
              (exit 0 (Some 0%Z) signal_null) b
              eq_refl eq_refl eq_refl Hends eq_refl eq_refl)))).
Defined.

(** X23: handling an input changes the entry of [loadProcess] of no
    project but the one the input is about and the state of no run but
    the one it reaches; the options of a run never change, no run and no
    event is ever removed. *)
Theorem X23_step_isolation (st : server) (i : input) :
  (forall k, input_project st i <> Some k ->
             loadProcess (step st i) !! k = loadProcess st !! k)
  /\ (forall r c, runs st !! r = Some c -> input_run st i <> Some r ->
                  runs (step st i) !! r = Some c)
  /\ (forall r c, runs st !! r = Some c ->
                  exists c', runs (step st i) !! r = Some c'
                             /\ options c' = options c)
  /\ (exists new, emitted (step st i) = emitted st ++ new).
Proof.
  assert (Hset : forall r c c',
             runs st !! r = Some c -> options c' = options c ->
             (forall r0 c0, runs st !! r0 = Some c0 -> Some r <> Some r0 ->
                            <[r := c']> (runs st) !! r0 = Some c0)
             /\ (forall r0 c0, runs st !! r0 = Some c0 ->
                   exists c1, <[r := c']> (runs st) !! r0 = Some c1
                              /\ options c1 = options c0)).
  { intros r c c' Hr Ho. split; intros r0 c0 Hr0.
    - intros Hne. rewrite list_lookup_insert_ne by congruence. exact Hr0.
    - destruct (decide (r = r0)) as [<-|Hne].
      + rewrite list_lookup_insert_eq by (eapply lookup_lt_Some; eauto).
        exists c'. split; [reflexivity|]. congruence.
      + rewrite list_lookup_insert_ne by exact Hne. eauto. }
  destruct i as [b|b|r d|r d|r code signal|r]; simpl.
  - unfold post_runload.
    destruct (truthy_at (loadProcess st) (projectID b)); simpl;
      [repeat split; eauto; exists []; now rewrite app_nil_r|].
    destruct (url_missing b); simpl;
      [repeat split; eauto; exists []; now rewrite app_nil_r|].
    split; [intros k Hk; apply lookup_insert_ne; congruence|].
    split; [intros r c Hr _; now apply lookup_app_l_Some|].
    split; [intros r c Hr; exists c; split; [now apply lookup_app_l_Some | reflexivity]|].
    eexists. rewrite <- app_assoc. reflexivity.
  - unfold post_cancelLoad.
    destruct (truthy_at (loadProcess st) (projectID b)); simpl;
      [|repeat split; eauto; exists []; now rewrite app_nil_r].
    destruct (loadProcess st !! projectID b) as [[|r]|]; simpl;
      try (repeat split; eauto; exists []; now rewrite app_nil_r).
    destruct (runs st !! r) as [c|] eqn:Hr; simpl;
      [|repeat split; eauto; exists []; now rewrite app_nil_r].
    destruct (Hset r c (killed c) Hr eq_refl) as [Ha Hb].
    repeat split; auto. exists []. now rewrite app_nil_r.
  - unfold on_stdout. destruct (runs st !! r) as [c|] eqn:Hr; simpl;
      [|repeat split; eauto; exists []; now rewrite app_nil_r].
    match goal with
    | |- context [<[r := ?c']> (runs st)] =>
        destruct (Hset r c c' Hr eq_refl) as [Ha Hb]
    end.
    repeat split; auto. exists []. now rewrite app_nil_r.
  - unfold on_stderr. destruct (runs st !! r) as [c|] eqn:Hr; simpl;
      [|repeat split; eauto; exists []; now rewrite app_nil_r].
    match goal with
    | |- context [<[r := ?c']> (runs st)] =>
        destruct (Hset r c c' Hr eq_refl) as [Ha Hb]
    end.
    repeat split; auto. exists []. now rewrite app_nil_r.
  - destruct (runs st !! r) as [c|] eqn:Hr.
    + destruct (on_exit_event st r c code signal Hr) as (e & -> & _). simpl.
      match goal with
      | |- context [<[r := ?c']> (runs st)] =>
          destruct (Hset r c c' Hr eq_refl) as [Ha Hb]
      end.
      split; [intros k Hk; apply lookup_insert_ne; congruence|].
      repeat split; eauto.
    + unfold on_exit. rewrite Hr.
      repeat split; eauto. exists []. now rewrite app_nil_r.
  - unfold on_error. destruct (runs st !! r) as [c|] eqn:Hr; simpl.
    + match goal with
      | |- context [<[r := ?c']> (runs st)] =>
          destruct (Hset r c c' Hr eq_refl) as [Ha Hb]
      end.
      split; [intros k Hk; apply lookup_insert_ne; congruence|].
      repeat split; eauto.
    + repeat split; eauto. exists []. now rewrite app_nil_r.
Qed.

Lemma X23_step_isolation_witness :
  let a := {| projectID := lit "a"; url := Some (lit "http://a");
              payload := [] |} in
  let b := {| projectID := lit "b"; url := Some (lit "http://b");
              payload := [] |} in
  let st := run_trace initial [runload a; runload b] in
  loadProcess (step st (exit 1 (Some 0%Z) signal_null)) !! lit "a"
  = Some (ChildProcess 0).
Proof.
  intros a b st.
  assert (Hother : input_project st (exit 1 (Some 0%Z) signal_null)
                   <> Some (lit "a")) by discriminate.
  exact (eq_trans
           (proj1 (X23_step_isolation st (exit 1 (Some 0%Z) signal_null))
              (lit "a") Hother)
           eq_refl).
Defined.

(** X24: whatever requests and worker reports the server has been
    through, no two runs of one project are live and the children
    [loadProcess] holds are exactly the live runs.  A start for a project
    that has a live run, or that is a name [Object.prototype] defines, is
    answered with the conflict status and changes nothing.  Of two starts
    in a row for any other project, the first spawns a worker and the
    second gets the conflict and spawns none. *)
Theorem X24_one_live_run_per_project (tr : list input) (b : req_body) :
  admissible_trace initial tr = true ->
  let st := run_trace initial tr in
  let conflict := status_send 409 (lit "A load run is already in progress") in
  (forall r1 r2 c1 c2,
      runs st !! r1 = Some c1 -> runs st !! r2 = Some c2 ->
      ended c1 = false -> ended c2 = false ->
      projectID (options c1) = projectID (options c2) -> r1 = r2)
  /\ (forall k r,
        loadProcess st !! k = Some (ChildProcess r) <->
        exists c, runs st !! r = Some c /\ ended c = false
                  /\ projectID (options c) = k)
  /\ (forall r c,
        runs st !! r = Some c -> ended c = false ->
        projectID (options c) = projectID b ->
        post_runload b st = (st, conflict))
  /\ (projectID b ∈ Object_prototype_keys -> post_runload b st = (st, conflict))
  /\ ((projectID b ∉ Object_prototype_keys) ->
      (forall r c, runs st !! r = Some c ->
                   projectID (options c) = projectID b -> ended c = true) ->
      url_missing b = false ->
      forall b2, projectID b2 = projectID b ->
        let st1 := fst (post_runload b st) in
        snd (post_runload b st) = sendStatus 202
        /\ List.length (runs st1) = S (List.length (runs st))
        /\ post_runload b2 st1 = (st1, conflict)).
Proof.
  intros Hadm st conflict.
  pose proof (invariant_trace tr Hadm) as Hinv. fold st in Hinv.
  destruct Hinv as [H1 H2 _ _].
  pose proof (plain_keys_trace tr) as [Hown _]. fold st in Hown.
  split; [|split; [|split; [|split]]].
  - intros r1 r2 c1 c2 Hr1 Hr2 He1 He2 Hk.
    pose proof (H1 r1 c1 Hr1 He1) as Hreg1.
    pose proof (H1 r2 c2 Hr2 He2) as Hreg2.
    rewrite Hk in Hreg1. congruence.
  - intros k r. split; [apply H2|].
    intros (c & Hr & He & <-). now apply H1.
  - intros r c Hr He Hk. apply post_runload_conflict.
    rewrite <- Hk. now rewrite (truthy_at_own _ _ _ (H1 r c Hr He)).
  - intros Hk. apply post_runload_conflict.
    apply (bool_decide_eq_true_2 _) in Hk. fold (inherited (projectID b)) in Hk.
    now rewrite (truthy_at_none _ _ (Hown _ Hk)).
  - intros Hk Hidle Hurl b2 Hb2 st1. subst st1.
    assert (Hfree : truthy_at (loadProcess st) (projectID b) = false).
    { apply (bool_decide_eq_false_2 _) in Hk.
      fold (inherited (projectID b)) in Hk.
      destruct (loadProcess st !! projectID b) as [[|r]|] eqn:Hlp.
      - now rewrite (truthy_at_own _ _ _ Hlp).
      - destruct (H2 _ _ Hlp) as (c & Hr & He & Hkey).
        rewrite (Hidle r c Hr Hkey) in He. discriminate.
      - now rewrite (truthy_at_none _ _ Hlp). }
    rewrite (post_runload_accepted st b Hfree Hurl). simpl.
    split; [reflexivity|]. split.
    + rewrite length_app. simpl. lia.
    + apply post_runload_conflict. simpl. rewrite Hb2.
      now rewrite (truthy_at_own _ _ (ChildProcess (List.length (runs st))))
        by apply lookup_insert_eq.
Qed.

Lemma X24_one_live_run_per_project_witness :
  let keyA := lit "keyA" in
  let first := {| projectID := keyA; url := Some (lit "http://x");
                  payload := [] |} in
  let second := {| projectID := keyA; url := Some (lit "http://y");
                   payload := [] |} in
  let st1 := fst (post_runload first initial) in
  snd (post_runload first initial) = sendStatus 202
  /\ List.length (runs st1) = 1
  /\ post_runload second st1
     = (st1, status_send 409 (lit "A load run is already in progress")).
Proof.
  intros keyA first second.
  assert (Hplain : keyA ∉ Object_prototype_keys)
    by (apply (bool_decide_eq_false_1 (keyA ∈ Object_prototype_keys));
        reflexivity).
  assert (Hidle : forall r c, runs initial !! r = Some c ->
                    projectID (options c) = projectID first -> ended c = true)
    by (intros r c H; discriminate H).
  exact (proj2 (proj2 (proj2 (proj2
           (X24_one_live_run_per_project [] first eq_refl))))
           Hplain Hidle eq_refl second eq_refl).
Defined.

